(** * A total order on JSON-like values: the comparator of [src/compare.js]

    The development embeds the comparison functions of [compare.js]
    ([comparePrimitives], [compareObjects], [compareArrays]), the
    [Builder] class and the default [builder] / [compare] pair, and
    proves the order-theoretic and frame properties stated for them. *)

From Stdlib Require Import ZArith QArith Bool List String Ascii Lia PeanoNat.
From Stdlib Require Import Sorted Permutation.
Import ListNotations.

Local Open Scope string_scope.
Local Open Scope list_scope.
Local Open Scope Z_scope.

(** ** Option as the monad of partial evaluation

    [None] means that evaluation left the modelled fragment of
    JavaScript (a coercion that is not modelled) or that the recursion
    budget of the comparator closure ran out. *)

Notation "x <- c1 ;; c2" :=
  (match c1 with Some x => c2 | None => None end)
  (at level 61, c1 at next level, right associativity).

(** ** Values *)

(** A JavaScript number, seen through the relational operators: NaN, the
    two infinities, or a finite number, given by its mathematical value.
    Every finite double is a rational; [-0] and [+0] are not told apart
    by [<] or [>] and are both [Finite 0]. *)
Inductive number : Type :=
| NaN
| Infinity (negative : bool)
| Finite (q : Q).

Set Warnings "-register-all".

(** The universe of values the comparator is run on.  A [Date] carries
    its time value (NaN for an invalid date), a [RegExp] its source and
    flags.  An object carries the name of its class, [None] for an
    object literal, and its own enumerable string-keyed properties in
    insertion order.  Strings are sequences of code units below 256. *)
Inductive value : Type :=
| VUndefined
| VNull
| VNumber (n : number)
| VString (s : string)
| VBoolean (b : bool)
| VDate (time : number)
| VRegExp (source flags : string)
| VArray (items : list value)
| VObject (class : option string) (props : list (string * value)).

(** Integers (indices and lengths) as JavaScript numbers. *)
Definition num (z : Z) : value := VNumber (Finite (inject_Z z)).

(** Nesting depth of arrays and objects. *)
Fixpoint depth (v : value) : nat :=
  match v with
  | VArray items => S (fold_right (fun x acc => Nat.max (depth x) acc) O items)
  | VObject _ props =>
      S (fold_right (fun kv acc => Nat.max (let '(_, x) := kv in depth x) acc) O props)
  | _ => O
  end.

(** ** The relational operators [<] and [>] *)

Inductive primitive : Type :=
| PUndefined
| PNull
| PNumber (n : number)
| PString (s : string)
| PBoolean (b : bool).

(** [ToPrimitive] with hint number, as the relational operators call it:
    a [Date] answers with [valueOf], its time value; a [RegExp] has no
    primitive [valueOf] and answers with [toString].  The string
    conversion of arrays and objects is not modelled. *)
Definition ToPrimitive (v : value) : option primitive :=
  match v with
  | VUndefined => Some PUndefined
  | VNull => Some PNull
  | VNumber n => Some (PNumber n)
  | VString s => Some (PString s)
  | VBoolean b => Some (PBoolean b)
  | VDate t => Some (PNumber t)
  | VRegExp source flags => Some (PString ("/" ++ source ++ "/" ++ flags))
  | VArray _ | VObject _ _ => None
  end.

(** [ToNumber] on primitives; parsing a string as a number is not
    modelled. *)
Definition ToNumber (p : primitive) : option number :=
  match p with
  | PUndefined => Some NaN
  | PNull => Some (Finite 0)
  | PNumber n => Some n
  | PBoolean b => Some (Finite (if b then 1 else 0))
  | PString _ => None
  end.

(** [a < b] on numbers: false as soon as one side is NaN. *)
Definition numLess (a b : number) : bool :=
  match a, b with
  | NaN, _ | _, NaN => false
  | Infinity s, Infinity t => s && negb t
  | Infinity s, Finite _ => s
  | Finite _, Infinity t => negb t
  | Finite p, Finite q => match (p ?= q)%Q with Lt => true | _ => false end
  end.

(** [x < y]: two strings are compared by code units, anything else
    numerically. *)
Definition lessThan (x y : value) : option bool :=
  px <- ToPrimitive x ;;
  py <- ToPrimitive y ;;
  match px, py with
  | PString a, PString b => Some (String.ltb a b)
  | _, _ =>
      nx <- ToNumber px ;;
      ny <- ToNumber py ;;
      Some (numLess nx ny)
  end.

(** [x > y] is [y < x]. *)
Definition greaterThan (x y : value) : option bool := lessThan y x.

(** ** [comparePrimitives] *)

Definition comparePrimitives (x y : value) : option Z :=
  lt <- lessThan x y ;;
  if lt then Some (-1)
  else
    gt <- greaterThan x y ;;
    if gt then Some 1 else Some 0.

(** The type of comparison functions. *)
Definition CompareFn : Type := value -> value -> option Z.

(** ** [compareObjects] *)

(** [Object.keys(x)]: the own keys, in insertion order. *)
Definition keys (props : list (string * value)) : list string :=
  map fst props.

(** [Array.prototype.sort] without a comparison function, on strings:
    ascending by code units. *)
Fixpoint insert (k : string) (l : list string) : list string :=
  match l with
  | [] => [k]
  | h :: t => if String.leb k h then k :: l else h :: insert k t
  end.

Definition sort (l : list string) : list string := fold_right insert [] l.

(** [x[k]] on the own properties: the value stored under [k], or
    [undefined]. *)
Definition getProp (props : list (string * value)) (k : string) : value :=
  match find (fun kv => String.eqb (fst kv) k) props with
  | Some (_, v) => v
  | None => VUndefined
  end.

Section CompareObjects.
Variables (x y : list (string * value)) (compareProperties : CompareFn).

Let keysOfX := sort (keys x).
Let keysOfY := sort (keys y).
Let n := List.length keysOfX.
Let m := List.length keysOfY.

(** The loop [for (let i = 0; i < n && i < m; i += 1)] from index [i]
    on, with [todo] iterations left. *)
Fixpoint compareObjects_from (todo i : nat) : option Z :=
  match todo with
  | O => comparePrimitives (num (Z.of_nat n)) (num (Z.of_nat m))
  | S todo' =>
      kx <- nth_error keysOfX i ;;
      ky <- nth_error keysOfY i ;;
      result <- comparePrimitives (VString kx) (VString ky) ;;
      if negb (result =? 0) then Some result
      else
        result <- compareProperties (getProp x kx) (getProp y ky) ;;
        if negb (result =? 0) then Some result
        else compareObjects_from todo' (S i)
  end.

Definition compareObjects : option Z := compareObjects_from (Nat.min n m) O.
End CompareObjects.

(** ** [compareArrays] *)

(** [x[i]] on an array: [undefined] out of range. *)
Definition item (x : list value) (i : nat) : value := nth i x VUndefined.

Section CompareArrays.
Variables (x y : list value) (compareItems : CompareFn).

Let n := List.length x.
Let m := List.length y.

Fixpoint compareArrays_from (todo i : nat) : option Z :=
  match todo with
  | O => comparePrimitives (num (Z.of_nat n)) (num (Z.of_nat m))
  | S todo' =>
      result <- compareItems (item x i) (item y i) ;;
      if negb (result =? 0) then Some result
      else compareArrays_from todo' (S i)
  end.

Definition compareArrays : option Z := compareArrays_from (Nat.min n m) O.
End CompareArrays.

(** ** Classification predicates *)

(** [x instanceof Object && Object.prototype.toString.call(x) ===
    '[object Object]']: object literals and class instances, but neither
    arrays, dates nor regular expressions. *)
Definition isObject (x : value) : bool :=
  match x with VObject _ _ => true | _ => false end.

Definition isArray (x : value) : bool :=
  match x with VArray _ => true | _ => false end.

Definition isNumber (x : value) : bool :=
  match x with VNumber _ => true | _ => false end.

Definition isString (x : value) : bool :=
  match x with VString _ => true | _ => false end.

Definition isBoolean (x : value) : bool :=
  match x with VBoolean _ => true | _ => false end.

Definition isDate (x : value) : bool :=
  match x with VDate _ => true | _ => false end.

Definition isRegExp (x : value) : bool :=
  match x with VRegExp _ _ => true | _ => false end.

(** [a === b] on numbers: NaN differs from everything. *)
Definition numEquals (a b : number) : bool :=
  match a, b with
  | Infinity s, Infinity t => Bool.eqb s t
  | Finite p, Finite q => Qeq_bool p q
  | _, _ => false
  end.

(** [y === x].  Dates, regular expressions, arrays and objects are equal
    only to themselves as references; values carry no reference, so two
    of them are never strictly equal here. *)
Definition strictEquals (y x : value) : bool :=
  match y, x with
  | VUndefined, VUndefined => true
  | VNull, VNull => true
  | VNumber a, VNumber b => numEquals a b
  | VString s, VString t => String.eqb s t
  | VBoolean a, VBoolean b => Bool.eqb a b
  | _, _ => false
  end.

Definition isLiteral (x : value) : value -> bool :=
  fun y => strictEquals y x.

(** The own properties of an object and the elements of an array. *)
Definition ownProps (x : value) : list (string * value) :=
  match x with VObject _ props => props | _ => [] end.

Definition elements (x : value) : list value :=
  match x with VArray items => items | _ => [] end.

(** ** Plugins and the [Builder] class *)

Module Plugin.

Record t : Type := make {
  predicate : value -> bool;
  compare : option CompareFn
}.

End Plugin.

Module Builder.

Record t : Type := new { plugins : list Plugin.t }.

Definition ifType (this : t) (predicate : value -> bool) (compare : CompareFn) : t :=
  new (plugins this ++ [Plugin.make predicate (Some compare)]).

Definition thenTypeObject (this : t) : t :=
  new (plugins this ++ [Plugin.make isObject None]).

Definition thenTypeArray (this : t) : t :=
  new (plugins this ++ [Plugin.make isArray None]).

(** The classification loop of the closure: [k] runs over the indices of
    the rules, [i] and [j] hold the last index whose predicate accepted
    [x] and [y]. *)
Fixpoint classify (rules : list Plugin.t) (k : Z) (x y : value) (i j : Z) : Z * Z :=
  match rules with
  | [] => (i, j)
  | rule :: rest =>
      let i := if Plugin.predicate rule x then k else i in
      let j := if Plugin.predicate rule y then k else j in
      classify rest (k + 1) x y i j
  end.

(** The closure [compare] that [get] returns, over the rule list; [fuel]
    bounds the depth of its calls to itself. *)
Fixpoint closure (rules : list Plugin.t) (fuel : nat) (x y : value) : option Z :=
  match fuel with
  | O => None
  | S fuel' =>
      let compare := closure rules fuel' in
      let '(i, j) := classify rules 0 x y (-1) (-1) in
      if negb (i =? j) then comparePrimitives (num i) (num j)
      else
        match
          (if 0 <=? i
           then rule <- nth_error rules (Z.to_nat i) ;; Plugin.compare rule
           else None)
        with
        | Some cmp => cmp x y
        | None =>
            if isObject x then
              if isObject y then compareObjects (ownProps x) (ownProps y) compare
              else Some (-1)
            else if isArray x then
              if isArray y then compareArrays (elements x) (elements y) compare
              else Some 1
            else Some 0
        end
  end.

Definition get (this : t) : nat -> CompareFn := closure (plugins this).

Definition create : t := new [].

End Builder.

(** ** The default builder and comparator *)

Definition builder : Builder.t :=
  let b := Builder.create in
  let b := Builder.ifType b (isLiteral VUndefined) (fun _ _ => Some 0) in
  let b := Builder.ifType b (isLiteral VNull) (fun _ _ => Some 0) in
  let b := Builder.ifType b isNumber comparePrimitives in
  let b := Builder.ifType b isString comparePrimitives in
  let b := Builder.thenTypeObject b in
  let b := Builder.thenTypeArray b in
  let b := Builder.ifType b isBoolean comparePrimitives in
  let b := Builder.ifType b isDate comparePrimitives in
  Builder.ifType b isRegExp comparePrimitives.

(** [compare = builder.get()], run with a budget that covers the nesting
    of [x]; [compare_get] below shows that every larger budget returns
    this same result, so that the [0] of the last branch is never
    taken. *)
Definition compare (x y : value) : Z :=
  match Builder.get builder (S (depth x)) x y with
  | Some result => result
  | None => 0
  end.

(** ** Auxiliary definitions for the proofs *)

(** A three-way comparison as the integer the comparator returns. *)
Definition signOf (c : comparison) : Z :=
  match c with Lt => -1 | Eq => 0 | Gt => 1 end.

(** The result of [comparePrimitives] on two numbers. *)
Definition numSign (a b : number) : Z :=
  if numLess a b then -1 else if numLess b a then 1 else 0.

(** Lexicographic comparison of two sequences by an element comparator:
    the first non-zero element comparison, else the shorter sequence
    first. *)
Fixpoint lex {A : Type} (c : A -> A -> option Z) (xs ys : list A) : option Z :=
  match xs, ys with
  | [], [] => Some 0
  | [], _ :: _ => Some (-1)
  | _ :: _, [] => Some 1
  | a :: xs', b :: ys' =>
      r <- c a b ;;
      if negb (r =? 0) then Some r else lex c xs' ys'
  end.

(** An entry of an object is compared by its key first, by its value
    next. *)
Definition pairCompare (compareValue : CompareFn) (a b : string * value) : option Z :=
  match String.compare (fst a) (fst b) with
  | Lt => Some (-1)
  | Gt => Some 1
  | Eq => compareValue (snd a) (snd b)
  end.

(** The entries of an object in the order of its sorted keys. *)
Definition entries (x : list (string * value)) : list (string * value) :=
  map (fun k => (k, getProp x k)) (sort (keys x)).

Definition isNaN (a : number) : bool :=
  match a with NaN => true | _ => false end.

(** No NaN number and no invalid date anywhere in the value. *)
Fixpoint nanFree (v : value) : bool :=
  match v with
  | VNumber NaN | VDate NaN => false
  | VArray items => forallb nanFree items
  | VObject _ props => forallb (fun kv => let '(_, x) := kv in nanFree x) props
  | _ => true
  end.

(** ** The object comparison as the specification words it

    Keys of both objects sorted independently; the two sorted key
    sequences walked in lockstep; at each position the keys decide
    first, then the values under them; when one sequence ends the
    object with fewer keys is smaller. *)
Fixpoint walk (compareValue : CompareFn) (x y : list (string * value))
  (keysX keysY : list string) : option Z :=
  match keysX, keysY with
  | [], [] => Some 0
  | [], _ :: _ => Some (-1)
  | _ :: _, [] => Some 1
  | kx :: keysX', ky :: keysY' =>
      match String.compare kx ky with
      | Lt => Some (-1)
      | Gt => Some 1
      | Eq =>
          r <- compareValue (getProp x kx) (getProp y ky) ;;
          if r =? 0 then walk compareValue x y keysX' keysY' else Some r
      end
  end.

Definition compareObjects_spec (x y : list (string * value)) (compareValue : CompareFn)
  : option Z :=
  walk compareValue x y (sort (keys x)) (sort (keys y)).

(** ** The default categories *)

Inductive category : Type :=
| Absent | Null | Number | Str | Object | Array | Boolean | Date | Pattern.

(** Position in the order absent-marker < null < number < string <
    object < array < boolean < date < pattern. *)
Definition rank (c : category) : Z :=
  match c with
  | Absent => 0 | Null => 1 | Number => 2 | Str => 3 | Object => 4
  | Array => 5 | Boolean => 6 | Date => 7 | Pattern => 8
  end.

Definition categoryOf (v : value) : category :=
  match v with
  | VUndefined => Absent
  | VNull => Null
  | VNumber _ => Number
  | VString _ => Str
  | VObject _ _ => Object
  | VArray _ => Array
  | VBoolean _ => Boolean
  | VDate _ => Date
  | VRegExp _ _ => Pattern
  end.

(** What the default comparator does on two values of one category. *)
Definition within (compare : CompareFn) (x y : value) : option Z :=
  match x, y with
  | VObject _ px, VObject _ py => compareObjects px py compare
  | VArray ix, VArray iy => compareArrays ix iy compare
  | VUndefined, _ | VNull, _ => Some 0
  | _, _ => comparePrimitives x y
  end.

(** ** Precedence resolution as the specification words it *)

(** [i] is the highest index of a rule whose predicate accepts [v], or
    -1 when no rule accepts [v]. *)
Definition highestMatch (rules : list Plugin.t) (v : value) (i : Z) : Prop :=
  (i = -1 \/
   (0 <= i /\
    exists rule,
      nth_error rules (Z.to_nat i) = Some rule /\ Plugin.predicate rule v = true)) /\
  (forall k rule,
     i < Z.of_nat k -> nth_error rules k = Some rule ->
     Plugin.predicate rule v = false).

(** The classification loop followed for one value only. *)
Fixpoint lastMatch (rules : list Plugin.t) (k : Z) (v : value) (i : Z) : Z :=
  match rules with
  | [] => i
  | rule :: rest => lastMatch rest (k + 1) v (if Plugin.predicate rule v then k else i)
  end.

(** ** Builders as objects in a store

    The class keeps its rules in a private array field.  Here the
    arrays live in a heap, a builder object holds the address of its
    [#plugins] array, and the closure that [get] returns keeps [this]
    and reads [this.#plugins] from the heap each time it is called. *)

Module Store.

Definition address : Type := nat.

Definition heap : Type := list (list Plugin.t).

Definition read (h : heap) (a : address) : list Plugin.t := nth a h [].

(** A fresh array, as an array literal creates it. *)
Definition alloc (h : heap) (array : list Plugin.t) : heap * address :=
  (h ++ [array], List.length h).

(** A builder object: its field [#plugins]. *)
Record instance : Type := construct { plugins : address }.

(** [new Builder([...this.#plugins, plugin])]: the spread copies the
    elements of the receiver's array into a fresh one. *)
Definition extend (this : instance) (plugin : Plugin.t) (h : heap) : heap * instance :=
  let '(h', a) := alloc h (read h (plugins this) ++ [plugin]) in
  (h', construct a).

Definition ifType (this : instance) (predicate : value -> bool) (compare : CompareFn)
  (h : heap) : heap * instance :=
  extend this (Plugin.make predicate (Some compare)) h.

Definition thenTypeObject (this : instance) (h : heap) : heap * instance :=
  extend this (Plugin.make isObject None) h.

Definition thenTypeArray (this : instance) (h : heap) : heap * instance :=
  extend this (Plugin.make isArray None) h.

Definition create (h : heap) : heap * instance :=
  let '(h', a) := alloc h [] in (h', construct a).

(** The closure returned by [this.get()], called in heap [h]. *)
Definition get (this : instance) (h : heap) : nat -> CompareFn :=
  Builder.closure (read h (plugins this)).

(** A builder operation on some receiver. *)
Inductive operation : Type :=
| IfType (receiver : instance) (predicate : value -> bool) (compare : CompareFn)
| ThenTypeObject (receiver : instance)
| ThenTypeArray (receiver : instance)
| Create.

Definition perform (op : operation) (h : heap) : heap * instance :=
  match op with
  | IfType this predicate compare => ifType this predicate compare h
  | ThenTypeObject this => thenTypeObject this h
  | ThenTypeArray this => thenTypeArray this h
  | Create => create h
  end.

(** The rule that an operation appends to the list of its receiver. *)
Definition appended (op : operation) : option (instance * Plugin.t) :=
  match op with
  | IfType this predicate compare => Some (this, Plugin.make predicate (Some compare))
  | ThenTypeObject this => Some (this, Plugin.make isObject None)
  | ThenTypeArray this => Some (this, Plugin.make isArray None)
  | Create => None
  end.

Fixpoint performAll (ops : list operation) (h : heap) : heap :=
  match ops with
  | [] => h
  | op :: rest => performAll rest (fst (perform op h))
  end.

(** The builder object lives in the heap. *)
Definition allocated (h : heap) (this : instance) : Prop :=
  (plugins this < List.length h)%nat.

(** The value-level builder that an object stands for. *)
Definition contents (h : heap) (this : instance) : Builder.t :=
  Builder.new (read h (plugins this)).

End Store.

(** ** Values that a predicate rejects throughout *)

(** [predicate] rejects [v] and every value nested in [v]. *)
Fixpoint rejectedDeep (predicate : value -> bool) (v : value) : bool :=
  negb (predicate v) &&
  match v with
  | VArray items => forallb (rejectedDeep predicate) items
  | VObject _ props =>
      forallb (fun kv => let '(_, x) := kv in rejectedDeep predicate x) props
  | _ => true
  end.

(** The results that the default comparator can return. *)
Definition threeValued (r : Z) : Prop := r = -1 \/ r = 0 \/ r = 1.

(** What a result of 0 says about two values of one category. *)
Definition sameShape (compare : value -> value -> Z) (x y : value) : Prop :=
  match x, y with
  | VString a, VString b => a = b
  | VBoolean a, VBoolean b => a = b
  | VArray xs, VArray ys => Forall2 (fun a b => compare a b = 0) xs ys
  | VObject _ px, VObject _ py =>
      sort (keys px) = sort (keys py) /\
      forall k, In k (keys px) -> compare (getProp px k) (getProp py k) = 0
  | _, _ => True
  end.

(** ** Sample values *)

Definition int (z : Z) : value := num z.

(** An object literal. *)
Definition obj (props : list (string * value)) : value := VObject None props.

(** [new Box(value)] for [class Box { constructor(value) { this.value =
    value; } }]. *)
Definition box (z : Z) : value := VObject (Some "Box") [("value", int z)].

(** [x instanceof Box]. *)
Definition isBox (x : value) : bool :=
  match x with
  | VObject (Some c) _ => String.eqb c "Box"
  | _ => false
  end.

(** A comparator of boxes by their [value] field. *)
Definition compareBox : CompareFn :=
  fun x y =>
    comparePrimitives (getProp (ownProps x) "value") (getProp (ownProps y) "value").

(** A heap holding the rule arrays of the empty and of the default
    builder. *)
Definition sampleHeap : Store.heap :=
  [Builder.plugins Builder.create; Builder.plugins builder].

(** ** The cases of the test suite *)


Example test_undefined_null : compare VUndefined VNull = -1 /\ compare VNull VUndefined = 1.
Proof. split; reflexivity. Qed.

Example test_number_string : compare (int 1) (VString "a") = -1.
Proof. reflexivity. Qed.

Example test_object_array : compare (obj []) (VArray []) = -1 /\ compare (VArray []) (obj []) = 1.
Proof. split; reflexivity. Qed.

Example test_array_boolean : compare (VArray []) (VBoolean true) = -1.
Proof. reflexivity. Qed.

Example test_date_regexp :
  compare (VDate (Finite 0)) (VRegExp "x" "") = -1.
Proof. reflexivity. Qed.

Example test_arrays :
  compare (VArray []) (VArray [int 1]) = -1 /\
  compare (VArray [int 1; int 2; int 3]) (VArray [int 1; int 2]) = 1 /\
  compare (VArray [int 1; int 2; int 3]) (VArray [int 1; int 2; int 4]) = -1 /\
  compare (VArray [VArray [int 1]; VArray [int 2]]) (VArray [VArray [int 1]; VArray [int 2]]) = 0.
Proof. repeat split; reflexivity. Qed.

Example test_nested_objects :
  compare (obj [("a", obj [("x", int 1)]); ("b", obj [("y", int 1)])])
          (obj [("b", obj [("y", int 1)]); ("a", obj [("x", int 1)])]) = 0.
Proof. reflexivity. Qed.

Example test_extended_builder :
  let newCompare := Builder.get (Builder.ifType builder isBox compareBox) 2 in
  newCompare (box 1) (box 2) = Some (-1) /\
  newCompare (box 2) (box 1) = Some 1 /\
  newCompare (box 1) (box 1) = Some 0 /\
  newCompare (box 1) (int 1) = Some 1 /\
  newCompare (int 1) (box 1) = Some (-1) /\
  newCompare (obj [("a", box 1); ("b", box 1)]) (obj [("a", box 1); ("b", box 2)]) = Some (-1).
Proof. repeat split; reflexivity. Qed.
(** ** Facts on the relational operators *)

Lemma numLess_asym (a b : number) : numLess a b = true -> numLess b a = false.
Proof.
  destruct a as [|s|p], b as [|t|q]; simpl; try congruence.
  - destruct s, t; simpl; congruence.
  - intros ->. reflexivity.
  - intros H. destruct t; simpl in *; congruence.
  - rewrite <- (Qcompare_antisym p q).
    destruct (p ?= q)%Q; simpl; congruence.
Qed.

Lemma numLess_irrefl (a : number) : numLess a a = false.
Proof.
  destruct (numLess a a) eqn:E; [|reflexivity].
  pose proof (numLess_asym _ _ E). congruence.
Qed.

(** Away from NaN, "not below" is transitive. *)
Lemma numLess_false_trans (a b c : number) :
  isNaN b = false ->
  numLess b a = false -> numLess c b = false -> numLess c a = false.
Proof.
  destruct a as [|s|p], b as [|t|q], c as [|u|r]; simpl; try congruence;
    repeat match goal with s : bool |- _ => destruct s end; simpl; try congruence.
  intros _.
  destruct (Qcompare_spec q p) as [H1|H1|H1]; try congruence;
    destruct (Qcompare_spec r q) as [H2|H2|H2]; try congruence;
    destruct (Qcompare_spec r p) as [H3|H3|H3]; try congruence; intros _ _; exfalso.
  - rewrite H2, H1 in H3. exact (Qlt_irrefl _ H3).
  - rewrite <- H1 in H3. exact (Qlt_irrefl _ (Qlt_trans _ _ _ H3 H2)).
  - rewrite H2 in H3. exact (Qlt_irrefl _ (Qlt_trans _ _ _ H3 H1)).
  - exact (Qlt_irrefl _ (Qlt_trans _ _ _ H3 (Qlt_trans _ _ _ H1 H2))).
Qed.

Lemma numSign_antisym (a b : number) : numSign a b = - numSign b a.
Proof.
  unfold numSign.
  destruct (numLess a b) eqn:E1.
  - rewrite (numLess_asym _ _ E1). reflexivity.
  - destruct (numLess b a); reflexivity.
Qed.

Lemma numSign_le (a b : number) : numSign a b <= 0 <-> numLess b a = false.
Proof.
  unfold numSign.
  destruct (numLess a b) eqn:E1.
  - rewrite (numLess_asym _ _ E1). split; [reflexivity | lia].
  - destruct (numLess b a); split; (congruence || lia).
Qed.

Lemma numSign_trans (a b c : number) :
  isNaN b = false ->
  numSign a b <= 0 -> numSign b c <= 0 -> numSign a c <= 0.
Proof.
  rewrite !numSign_le. intros Hb H1 H2.
  exact (numLess_false_trans a b c Hb H1 H2).
Qed.

Lemma numSign_int (a b : Z) :
  numSign (Finite (inject_Z a)) (Finite (inject_Z b)) = signOf (a ?= b).
Proof.
  unfold numSign, numLess, Qcompare, inject_Z. simpl.
  rewrite !Z.mul_1_r.
  rewrite (Z.compare_antisym a b).
  destruct (a ?= b); reflexivity.
Qed.

(** *** Strings *)

Lemma ascii_compare_lt_trans (a b c : ascii) :
  Ascii.compare a b = Lt -> Ascii.compare b c = Lt -> Ascii.compare a c = Lt.
Proof.
  unfold Ascii.compare. rewrite !N.compare_lt_iff. lia.
Qed.

Lemma string_compare_refl (s : string) : String.compare s s = Eq.
Proof.
  pose proof (String.compare_antisym s s) as H.
  destruct (String.compare s s); simpl in H; congruence.
Qed.

Lemma string_compare_lt_trans (a b c : string) :
  String.compare a b = Lt -> String.compare b c = Lt -> String.compare a c = Lt.
Proof.
  revert b c. induction a as [|x a IH]; intros [|y b] [|z c]; simpl; try congruence.
  destruct (Ascii.compare x y) eqn:Exy; try congruence;
  destruct (Ascii.compare y z) eqn:Eyz; try congruence; intros H1 H2.
  - pose proof (Ascii.compare_eq_iff _ _ Exy). pose proof (Ascii.compare_eq_iff _ _ Eyz).
    subst. rewrite Exy. eauto.
  - pose proof (Ascii.compare_eq_iff _ _ Exy). subst. rewrite Eyz. reflexivity.
  - pose proof (Ascii.compare_eq_iff _ _ Eyz). subst. rewrite Exy. reflexivity.
  - rewrite (ascii_compare_lt_trans _ _ _ Exy Eyz). reflexivity.
Qed.

(** ** Facts on [comparePrimitives] *)

Lemma signOf_opp (c : comparison) : signOf (CompOpp c) = - signOf c.
Proof. destruct c; reflexivity. Qed.

Lemma string_sign_antisym (a b : string) :
  signOf (String.compare a b) = - signOf (String.compare b a).
Proof. rewrite (String.compare_antisym a b). apply signOf_opp. Qed.

Lemma string_sign_trans (a b c : string) :
  signOf (String.compare a b) <= 0 -> signOf (String.compare b c) <= 0 ->
  signOf (String.compare a c) <= 0.
Proof.
  destruct (String.compare a b) eqn:E1; destruct (String.compare b c) eqn:E2;
    simpl; try lia; intros _ _.
  - apply String.compare_eq_iff in E1, E2. subst. rewrite string_compare_refl. simpl. lia.
  - apply String.compare_eq_iff in E1. subst. rewrite E2. simpl. lia.
  - apply String.compare_eq_iff in E2. subst. rewrite E1. simpl. lia.
  - rewrite (string_compare_lt_trans _ _ _ E1 E2). simpl. lia.
Qed.

(** [comparePrimitives] in closed form, from the primitives of its two
    operands. *)
Lemma comparePrimitives_eval (x y : value) (px py : primitive) :
  ToPrimitive x = Some px -> ToPrimitive y = Some py ->
  comparePrimitives x y =
    match px, py with
    | PString a, PString b => Some (signOf (String.compare a b))
    | _, _ => a <- ToNumber px ;; b <- ToNumber py ;; Some (numSign a b)
    end.
Proof.
  intros Hx Hy. unfold comparePrimitives, greaterThan, lessThan.
  rewrite Hx, Hy.
  destruct px, py; cbv beta iota delta [ToNumber numSign];
    try reflexivity;
    try (repeat match goal with
                | |- context [numLess ?a ?b] => destruct (numLess a b)
                end; reflexivity).
  unfold String.ltb.
  match goal with
  | |- context [String.compare ?a ?b] =>
      rewrite (String.compare_antisym b a); destruct (String.compare a b); reflexivity
  end.
Qed.

Lemma comparePrimitives_antisym (x y : value) (r : Z) :
  comparePrimitives x y = Some r -> comparePrimitives y x = Some (- r).
Proof.
  destruct (ToPrimitive x) as [px|] eqn:Hx; [|unfold comparePrimitives, lessThan; rewrite Hx; discriminate].
  destruct (ToPrimitive y) as [py|] eqn:Hy;
    [|unfold comparePrimitives, lessThan; rewrite Hx, Hy; discriminate].
  rewrite (comparePrimitives_eval x y px py Hx Hy), (comparePrimitives_eval y x py px Hy Hx).
  destruct px, py; simpl; intros H; inversion H; subst; clear H; f_equal;
    try apply numSign_antisym; try apply string_sign_antisym.
Qed.

Lemma comparePrimitives_numbers (a b : number) :
  comparePrimitives (VNumber a) (VNumber b) = Some (numSign a b).
Proof. apply (comparePrimitives_eval _ _ (PNumber a) (PNumber b)); reflexivity. Qed.

Lemma comparePrimitives_strings (a b : string) :
  comparePrimitives (VString a) (VString b) = Some (signOf (String.compare a b)).
Proof. apply (comparePrimitives_eval _ _ (PString a) (PString b)); reflexivity. Qed.

Lemma comparePrimitives_int (a b : Z) :
  comparePrimitives (num a) (num b) = Some (signOf (a ?= b)).
Proof. unfold num. rewrite comparePrimitives_numbers, numSign_int. reflexivity. Qed.

(** The values [comparePrimitives] is registered for in the default
    builder, two of one kind, always have a result. *)
Lemma comparePrimitives_total (x y : value) :
  categoryOf x = categoryOf y ->
  isObject x = false -> isArray x = false ->
  exists r, comparePrimitives x y = Some r.
Proof.
  destruct x, y; simpl; try discriminate; intros _ _ _;
    erewrite comparePrimitives_eval by (simpl; reflexivity);
    cbv beta iota delta [ToNumber]; eauto.
Qed.

(** ** Lexicographic comparison *)

Section WeakOrder.
Context {A : Type}.
Variables (c : A -> A -> option Z) (P : A -> Prop).

Hypothesis c_antisym : forall a b r, c a b = Some r -> c b a = Some (- r).
Hypothesis c_trans : forall x y z a b r,
  P x -> P y -> P z ->
  c x y = Some a -> c y z = Some b -> c x z = Some r ->
  a <= 0 -> b <= 0 -> r <= 0.

Lemma weak_lt_l (x y z : A) (a b r : Z) :
  P x -> P y -> P z ->
  c x y = Some a -> c y z = Some b -> c x z = Some r ->
  a < 0 -> b <= 0 -> r < 0.
Proof.
  intros Px Py Pz Ha Hb Hr La Lb.
  destruct (Z_lt_ge_dec r 0) as [|Ge]; [assumption|exfalso].
  pose proof (c_trans y z x b (- r) (- a) Py Pz Px Hb (c_antisym _ _ _ Hr)
                (c_antisym _ _ _ Ha)).
  lia.
Qed.

Lemma weak_lt_r (x y z : A) (a b r : Z) :
  P x -> P y -> P z ->
  c x y = Some a -> c y z = Some b -> c x z = Some r ->
  a <= 0 -> b < 0 -> r < 0.
Proof.
  intros Px Py Pz Ha Hb Hr La Lb.
  destruct (Z_lt_ge_dec r 0) as [|Ge]; [assumption|exfalso].
  pose proof (c_trans z x y (- r) a (- b) Pz Px Py (c_antisym _ _ _ Hr) Ha
                (c_antisym _ _ _ Hb)).
  lia.
Qed.

Lemma weak_eq (x y z : A) (a b r : Z) :
  P x -> P y -> P z ->
  c x y = Some a -> c y z = Some b -> c x z = Some r ->
  a = 0 -> b = 0 -> r = 0.
Proof.
  intros Px Py Pz Ha Hb Hr La Lb.
  pose proof (c_trans x y z a b r Px Py Pz Ha Hb Hr).
  pose proof (c_trans z y x (- b) (- a) (- r) Pz Py Px (c_antisym _ _ _ Hb)
                (c_antisym _ _ _ Ha) (c_antisym _ _ _ Hr)).
  lia.
Qed.

Lemma lex_antisym (xs ys : list A) (r : Z) :
  lex c xs ys = Some r -> lex c ys xs = Some (- r).
Proof.
  revert ys r. induction xs as [|a xs IH]; intros [|b ys] r; simpl;
    try (intros H; inversion H; reflexivity).
  destruct (c a b) as [e|] eqn:E; [|discriminate].
  rewrite (c_antisym _ _ _ E).
  destruct (Z.eqb_spec e 0) as [->|Ne]; simpl.
  - apply IH.
  - destruct (Z.eqb_spec (- e) 0); [lia|]. simpl.
    intros H; inversion H; reflexivity.
Qed.

Lemma lex_trans (xs ys zs : list A) (a b r : Z) :
  Forall P xs -> Forall P ys -> Forall P zs ->
  lex c xs ys = Some a -> lex c ys zs = Some b -> lex c xs zs = Some r ->
  a <= 0 -> b <= 0 -> r <= 0.
Proof.
  revert ys zs a b r.
  induction xs as [|x xs IH]; intros [|y ys] [|z zs] a b r Fx Fy Fz; simpl;
    try (intros H1 H2 H3; inversion H1; inversion H2; inversion H3; lia).
  inversion Fx as [|? ? Px Fx']; inversion Fy as [|? ? Py Fy'];
    inversion Fz as [|? ? Pz Fz']; subst.
  destruct (c x y) as [e1|] eqn:E1; [|discriminate].
  destruct (c y z) as [e2|] eqn:E2; [|discriminate].
  destruct (c x z) as [e3|] eqn:E3; [|discriminate].
  destruct (Z.eqb_spec e1 0) as [Z1|N1]; simpl;
    destruct (Z.eqb_spec e2 0) as [Z2|N2]; simpl;
    destruct (Z.eqb_spec e3 0) as [Z3|N3]; simpl;
    intros H1 H2 H3 La Lb;
    try (inversion H1; subst a); try (inversion H2; subst b);
    try (inversion H3; subst r).
  - exact (IH ys zs a b r Fx' Fy' Fz' H1 H2 H3 La Lb).
  - pose proof (weak_eq x y z _ _ _ Px Py Pz E1 E2 E3 Z1 Z2). lia.
  - pose proof (weak_lt_r x y z _ _ _ Px Py Pz E1 E2 E3). lia.
  - pose proof (weak_lt_r x y z _ _ _ Px Py Pz E1 E2 E3). lia.
  - pose proof (weak_lt_l x y z _ _ _ Px Py Pz E1 E2 E3). lia.
  - pose proof (weak_lt_l x y z _ _ _ Px Py Pz E1 E2 E3). lia.
  - pose proof (weak_lt_l x y z _ _ _ Px Py Pz E1 E2 E3). lia.
  - pose proof (weak_lt_l x y z _ _ _ Px Py Pz E1 E2 E3). lia.
Qed.

End WeakOrder.

Section LexBasics.
Context {A : Type}.

Lemma lex_mono (c c' : A -> A -> option Z) (xs ys : list A) (r : Z) :
  (forall a b e, c a b = Some e -> c' a b = Some e) ->
  lex c xs ys = Some r -> lex c' xs ys = Some r.
Proof.
  intros Hc. revert ys. induction xs as [|a xs IH]; intros [|b ys]; simpl; try tauto.
  destruct (c a b) as [e|] eqn:E; [|discriminate].
  rewrite (Hc _ _ _ E). destruct (e =? 0); simpl; auto.
Qed.

Lemma lex_total (c : A -> A -> option Z) (xs ys : list A) :
  Forall (fun a => forall b, exists e, c a b = Some e) xs ->
  exists r, lex c xs ys = Some r.
Proof.
  intros F. revert ys. induction F as [|a xs Ha F IH]; intros [|b ys]; simpl; eauto.
  destruct (Ha b) as [e ->]. destruct (e =? 0); simpl; eauto.
Qed.

Lemma lex_refl (c : A -> A -> option Z) (xs : list A) :
  Forall (fun a => c a a = Some 0) xs -> lex c xs xs = Some 0.
Proof.
  induction 1 as [|a xs Ha F IH]; simpl; [reflexivity|].
  rewrite Ha. simpl. exact IH.
Qed.

End LexBasics.

(** ** The two loops are lexicographic comparisons *)

Lemma compareArrays_from_lex (c : CompareFn) (xs ys pre_x pre_y : list value) :
  List.length pre_x = List.length pre_y ->
  compareArrays_from (pre_x ++ xs) (pre_y ++ ys) c
    (Nat.min (List.length xs) (List.length ys)) (List.length pre_x)
  = lex c xs ys.
Proof.
  revert ys pre_x pre_y.
  induction xs as [|a xs IH]; intros [|b ys] pre_x pre_y Hlen; simpl;
    try (rewrite comparePrimitives_int, !length_app; simpl;
         match goal with
         | |- context [?u ?= ?v] => destruct (Z.compare_spec u v)
         end; simpl; try reflexivity; lia).
  unfold item. rewrite nth_middle.
  replace (nth (List.length pre_x) (pre_y ++ b :: ys) VUndefined) with b
    by (rewrite Hlen, nth_middle; reflexivity).
  destruct (c a b) as [e|]; [|reflexivity].
  destruct (negb (e =? 0)); [reflexivity|].
  specialize (IH ys (pre_x ++ [a]) (pre_y ++ [b])).
  rewrite <- !app_assoc, !length_app in IH. simpl in IH.
  rewrite Nat.add_1_r in IH. apply IH. lia.
Qed.

Lemma compareArrays_lex (x y : list value) (c : CompareFn) :
  compareArrays x y c = lex c x y.
Proof. exact (compareArrays_from_lex c x y [] [] eq_refl). Qed.

Lemma nth_error_middle {A : Type} (pre post : list A) (a : A) :
  nth_error (pre ++ a :: post) (List.length pre) = Some a.
Proof. induction pre; simpl; auto. Qed.

Lemma compareObjects_from_walk (c : CompareFn) (x y : list (string * value))
  (kxs kys pre_x pre_y : list string) :
  sort (keys x) = pre_x ++ kxs ->
  sort (keys y) = pre_y ++ kys ->
  List.length pre_x = List.length pre_y ->
  compareObjects_from x y c (Nat.min (List.length kxs) (List.length kys)) (List.length pre_x)
  = walk c x y kxs kys.
Proof.
  revert kys pre_x pre_y.
  induction kxs as [|kx kxs IH]; intros [|ky kys] pre_x pre_y Hx Hy Hlen; simpl;
    try (rewrite comparePrimitives_int, Hx, Hy, !length_app; simpl;
         match goal with
         | |- context [?u ?= ?v] => destruct (Z.compare_spec u v)
         end; simpl; try reflexivity; lia).
  rewrite Hx, nth_error_middle, Hy, Hlen, nth_error_middle.
  rewrite comparePrimitives_strings.
  destruct (String.compare kx ky); simpl; try reflexivity.
  destruct (c (getProp x kx) (getProp y ky)) as [e|]; [|reflexivity].
  destruct (e =? 0); simpl; [|reflexivity].
  rewrite <- Hlen.
  specialize (IH kys (pre_x ++ [kx]) (pre_y ++ [ky])).
  rewrite <- !app_assoc, !length_app in IH. simpl in IH.
  rewrite Nat.add_1_r in IH. apply IH; auto. lia.
Qed.

Lemma compareObjects_walk (x y : list (string * value)) (c : CompareFn) :
  compareObjects x y c = compareObjects_spec x y c.
Proof. exact (compareObjects_from_walk c x y _ _ [] [] eq_refl eq_refl eq_refl). Qed.

Lemma walk_lex (c : CompareFn) (x y : list (string * value)) (kxs kys : list string) :
  walk c x y kxs kys =
  lex (pairCompare c) (map (fun k => (k, getProp x k)) kxs)
                      (map (fun k => (k, getProp y k)) kys).
Proof.
  revert kys. induction kxs as [|kx kxs IH]; intros [|ky kys]; simpl; try reflexivity.
  unfold pairCompare at 1. simpl.
  destruct (String.compare kx ky); simpl; try reflexivity.
  destruct (c (getProp x kx) (getProp y ky)) as [e|]; [|reflexivity].
  destruct (e =? 0); simpl; auto.
Qed.

Lemma compareObjects_lex (x y : list (string * value)) (c : CompareFn) :
  compareObjects x y c = lex (pairCompare c) (entries x) (entries y).
Proof. rewrite compareObjects_walk. apply walk_lex. Qed.

(** ** Entries of objects *)

Section PairCompare.
Variable c : CompareFn.

Lemma pairCompare_antisym :
  (forall a b r, c a b = Some r -> c b a = Some (- r)) ->
  forall a b r, pairCompare c a b = Some r -> pairCompare c b a = Some (- r).
Proof.
  intros Hc a b r. unfold pairCompare.
  rewrite (String.compare_antisym (fst b) (fst a)).
  destruct (String.compare (fst a) (fst b)); simpl.
  - apply Hc.
  - intros H; inversion H; reflexivity.
  - intros H; inversion H; reflexivity.
Qed.

Lemma pairCompare_trans (P : value -> Prop) :
  (forall x y z a b r, P x -> P y -> P z ->
     c x y = Some a -> c y z = Some b -> c x z = Some r ->
     a <= 0 -> b <= 0 -> r <= 0) ->
  forall x y z a b r,
    P (snd x) -> P (snd y) -> P (snd z) ->
    pairCompare c x y = Some a -> pairCompare c y z = Some b ->
    pairCompare c x z = Some r ->
    a <= 0 -> b <= 0 -> r <= 0.
Proof.
  intros Hc [k1 v1] [k2 v2] [k3 v3] a b r. unfold pairCompare. simpl.
  intros P1 P2 P3.
  destruct (String.compare k1 k2) eqn:E12;
    destruct (String.compare k2 k3) eqn:E23;
    try (intros H1 H2 _; inversion H1; inversion H2; lia).
  - apply String.compare_eq_iff in E12, E23. subst.
    rewrite string_compare_refl. apply Hc; assumption.
  - apply String.compare_eq_iff in E12. subst. rewrite E23.
    intros _ _ H; inversion H; lia.
  - apply String.compare_eq_iff in E23. subst. rewrite E12.
    intros _ _ H; inversion H; lia.
  - rewrite (string_compare_lt_trans _ _ _ E12 E23).
    intros _ _ H; inversion H; lia.
Qed.

Lemma pairCompare_refl (a : string * value) :
  c (snd a) (snd a) = Some 0 -> pairCompare c a a = Some 0.
Proof. unfold pairCompare. rewrite string_compare_refl. auto. Qed.

Lemma pairCompare_total (a : string * value) :
  (forall v, exists e, c (snd a) v = Some e) ->
  forall b, exists e, pairCompare c a b = Some e.
Proof.
  intros H b. unfold pairCompare.
  destruct (String.compare (fst a) (fst b)); eauto.
Qed.

End PairCompare.

Lemma pairCompare_mono (c c' : CompareFn) :
  (forall a b e, c a b = Some e -> c' a b = Some e) ->
  forall a b e, pairCompare c a b = Some e -> pairCompare c' a b = Some e.
Proof.
  intros H a b e. unfold pairCompare.
  destruct (String.compare (fst a) (fst b)); auto.
Qed.

(** A property read is [undefined] or one of the stored values. *)
Lemma getProp_cases (x : list (string * value)) (k : string) :
  getProp x k = VUndefined \/ In (getProp x k) (map snd x).
Proof.
  unfold getProp.
  destruct (find (fun kv => String.eqb (fst kv) k) x) as [[k' v]|] eqn:E; [|auto].
  right. apply find_some in E. destruct E as [E _].
  apply (in_map snd) in E. exact E.
Qed.

Lemma entries_Forall (Q : value -> Prop) (x : list (string * value)) :
  Q VUndefined -> Forall Q (map snd x) ->
  Forall (fun kv => Q (snd kv)) (entries x).
Proof.
  intros Hu Hx. unfold entries. apply Forall_forall.
  intros kv Hin. apply in_map_iff in Hin. destruct Hin as [k [<- _]]. simpl.
  destruct (getProp_cases x k) as [->|Hin]; [assumption|].
  rewrite Forall_forall in Hx. auto.
Qed.

(** *** Depth and NaN-freedom of the members *)

Lemma depth_items (items : list value) (n : nat) :
  (depth (VArray items) < S n)%nat -> Forall (fun v => (depth v < n)%nat) items.
Proof.
  simpl. induction items as [|v items IH]; simpl; intros H; constructor.
  - lia.
  - apply IH. lia.
Qed.

Lemma depth_props (class : option string) (props : list (string * value)) (n : nat) :
  (depth (VObject class props) < S n)%nat ->
  Forall (fun v => (depth v < n)%nat) (map snd props).
Proof.
  simpl. induction props as [|[k v] props IH]; simpl; intros H; constructor.
  - lia.
  - apply IH. lia.
Qed.

Lemma nanFree_items (items : list value) :
  nanFree (VArray items) = true -> Forall (fun v => nanFree v = true) items.
Proof.
  simpl. induction items as [|v items IH]; simpl; intros H; constructor;
    apply andb_true_iff in H; destruct H; auto.
Qed.

Lemma nanFree_props (class : option string) (props : list (string * value)) :
  nanFree (VObject class props) = true ->
  Forall (fun v => nanFree v = true) (map snd props).
Proof.
  simpl. induction props as [|[k v] props IH]; simpl; intros H; constructor;
    apply andb_true_iff in H; destruct H; auto.
Qed.

(** ** The closure returned by [get] *)

Lemma closure_S (rules : list Plugin.t) (fuel : nat) (x y : value) :
  Builder.closure rules (S fuel) x y =
  let '(i, j) := Builder.classify rules 0 x y (-1) (-1) in
  if negb (i =? j) then comparePrimitives (num i) (num j)
  else
    match
      (if 0 <=? i
       then rule <- nth_error rules (Z.to_nat i) ;; Plugin.compare rule
       else None)
    with
    | Some cmp => cmp x y
    | None =>
        if isObject x then
          if isObject y
          then compareObjects (ownProps x) (ownProps y) (Builder.closure rules fuel)
          else Some (-1)
        else if isArray x then
          if isArray y
          then compareArrays (elements x) (elements y) (Builder.closure rules fuel)
          else Some 1
        else Some 0
    end.
Proof. reflexivity. Qed.

(** A larger budget never changes a result. *)
Lemma closure_mono (rules : list Plugin.t) (fuel : nat) :
  forall x y r,
    Builder.closure rules fuel x y = Some r ->
    Builder.closure rules (S fuel) x y = Some r.
Proof.
  induction fuel as [|fuel IH]; intros x y r; [discriminate|].
  rewrite (closure_S rules (S fuel)), (closure_S rules fuel).
  destruct (Builder.classify rules 0 x y (-1) (-1)) as [i j].
  destruct (negb (i =? j)); [auto|].
  destruct (if 0 <=? i then _ else None); [auto|].
  destruct (isObject x).
  - destruct (isObject y); [|auto].
    rewrite !compareObjects_lex. apply lex_mono. apply pairCompare_mono. exact IH.
  - destruct (isArray x); [|auto].
    destruct (isArray y); [|auto].
    rewrite !compareArrays_lex. apply lex_mono. exact IH.
Qed.

Lemma closure_mono_le (rules : list Plugin.t) (n m : nat) (x y : value) (r : Z) :
  (n <= m)%nat ->
  Builder.closure rules n x y = Some r -> Builder.closure rules m x y = Some r.
Proof.
  induction 1 as [|m Hle IH]; [auto|].
  intros H. apply closure_mono. auto.
Qed.

(** ** The classification loop *)

Lemma classify_lastMatch (rules : list Plugin.t) (k : Z) (x y : value) (i j : Z) :
  Builder.classify rules k x y i j = (lastMatch rules k x i, lastMatch rules k y j).
Proof.
  revert k i j. induction rules as [|rule rest IH]; intros k i j; simpl; [reflexivity|].
  apply IH.
Qed.

Lemma lastMatch_app (rules rules' : list Plugin.t) (k : Z) (v : value) (i : Z) :
  lastMatch (rules ++ rules') k v i =
  lastMatch rules' (k + Z.of_nat (List.length rules)) v (lastMatch rules k v i).
Proof.
  revert k i. induction rules as [|rule rest IH]; intros k i; simpl List.length; simpl.
  - rewrite Z.add_0_r. reflexivity.
  - rewrite IH. f_equal. lia.
Qed.

Lemma lastMatch_inv (rules : list Plugin.t) :
  forall k v i,
    (lastMatch rules k v i = i /\
     forall m rule, nth_error rules m = Some rule -> Plugin.predicate rule v = false)
    \/
    (exists m rule,
       lastMatch rules k v i = k + Z.of_nat m /\
       nth_error rules m = Some rule /\ Plugin.predicate rule v = true /\
       forall m' rule', (m < m')%nat -> nth_error rules m' = Some rule' ->
                        Plugin.predicate rule' v = false).
Proof.
  induction rules as [|rule rest IH]; intros k v i; simpl.
  - left. split; [reflexivity|]. intros [|m] r H; discriminate H.
  - destruct (IH (k + 1) v (if Plugin.predicate rule v then k else i))
      as [[Heq Hall]|[m [r [Heq [Hnth [Hp Hlater]]]]]].
    + destruct (Plugin.predicate rule v) eqn:Hp.
      * right. exists O, rule. repeat split; auto.
        -- rewrite Heq. simpl. lia.
        -- intros [|m'] r' Hlt Hn; [lia|]. simpl in Hn. eauto.
      * left. split; [exact Heq|].
        intros [|m] r Hn; simpl in Hn; [inversion Hn; subst; exact Hp|eauto].
    + right. exists (S m), r. repeat split; auto.
      * rewrite Heq. lia.
      * intros [|m'] r' Hlt Hn; [lia|]. simpl in Hn.
        apply (Hlater m' r'); [lia|exact Hn].
Qed.

(** The loop computes the highest matching index. *)
Lemma lastMatch_highest (rules : list Plugin.t) (v : value) :
  highestMatch rules v (lastMatch rules 0 v (-1)).
Proof.
  destruct (lastMatch_inv rules 0 v (-1)) as [[Heq Hall]|[m [r [Heq [Hnth [Hp Hlater]]]]]];
    rewrite Heq; split.
  - left. reflexivity.
  - intros k rule _ Hn. eauto.
  - right. split; [lia|]. exists r. simpl. rewrite Nat2Z.id. auto.
  - intros k rule Hlt Hn. apply (Hlater k rule); [lia|exact Hn].
Qed.

Lemma highestMatch_unique (rules : list Plugin.t) (v : value) (i i' : Z) :
  highestMatch rules v i -> highestMatch rules v i' -> i = i'.
Proof.
  intros [Hi Hafter] [Hi' Hafter'].
  destruct (Z.lt_trichotomy i i') as [Hlt|[Heq|Hgt]]; [exfalso|exact Heq|exfalso].
  - destruct Hi' as [->|[Hpos [rule [Hn Hp]]]].
    + destruct Hi as [->|[Hpos _]]; lia.
    + rewrite (Hafter (Z.to_nat i') rule) in Hp; [discriminate|lia|exact Hn].
  - destruct Hi as [->|[Hpos [rule [Hn Hp]]]].
    + destruct Hi' as [->|[Hpos _]]; lia.
    + rewrite (Hafter' (Z.to_nat i) rule) in Hp; [discriminate|lia|exact Hn].
Qed.

Lemma classify_highest (rules : list Plugin.t) (x y : value) (i j : Z) :
  highestMatch rules x i -> highestMatch rules y j ->
  Builder.classify rules 0 x y (-1) (-1) = (i, j).
Proof.
  intros Hx Hy. rewrite classify_lastMatch. f_equal.
  - exact (highestMatch_unique rules x _ _ (lastMatch_highest rules x) Hx).
  - exact (highestMatch_unique rules y _ _ (lastMatch_highest rules y) Hy).
Qed.

(** Under the default rules the highest matching index is the rank of
    the category. *)
Lemma lastMatch_default (v : value) :
  lastMatch (Builder.plugins builder) 0 v (-1) = rank (categoryOf v).
Proof. destruct v; reflexivity. Qed.

(** ** [sort] sorts *)

Lemma insert_perm (k : string) (l : list string) : Permutation (k :: l) (insert k l).
Proof.
  induction l as [|h t IH]; simpl; [reflexivity|].
  destruct (String.leb k h); [reflexivity|].
  rewrite perm_swap. constructor. exact IH.
Qed.

(** The sorted keys are the keys, rearranged. *)
Lemma sort_perm (l : list string) : Permutation l (sort l).
Proof.
  induction l as [|h t IH]; simpl; [constructor|].
  rewrite <- insert_perm. constructor. exact IH.
Qed.

Lemma insert_sorted (k : string) (l : list string) :
  Sorted (fun a b => String.leb a b = true) l ->
  Sorted (fun a b => String.leb a b = true) (insert k l).
Proof.
  induction 1 as [|h t Hs IH Hh]; simpl.
  - repeat constructor.
  - destruct (String.leb k h) eqn:E.
    + repeat constructor; assumption.
    + assert (Hhk : String.leb h k = true)
        by (destruct (String.leb_total k h); congruence).
      constructor; [exact IH|].
      destruct t as [|h' t]; simpl.
      * constructor. exact Hhk.
      * inversion Hh; subst. destruct (String.leb k h'); constructor; assumption.
Qed.

(** The sorted keys ascend by code units. *)
Lemma sort_sorted (l : list string) :
  Sorted (fun a b => String.leb a b = true) (sort l).
Proof.
  induction l as [|h t IH]; simpl; [constructor|].
  apply insert_sorted. exact IH.
Qed.

Lemma leb_sign (a b : string) :
  String.leb a b = true <-> signOf (String.compare a b) <= 0.
Proof.
  unfold String.leb. destruct (String.compare a b); simpl; split;
    intros H; try reflexivity; try lia; discriminate H.
Qed.

Lemma leb_trans (a b c : string) :
  String.leb a b = true -> String.leb b c = true -> String.leb a c = true.
Proof. rewrite !leb_sign. apply string_sign_trans. Qed.

Lemma leb_false (a b : string) : String.leb a b = false -> String.leb b a = true.
Proof. destruct (String.leb_total a b); congruence. Qed.

Lemma insert_insert (a b : string) (l : list string) :
  insert a (insert b l) = insert b (insert a l).
Proof.
  induction l as [|h t IH]; simpl.
  - destruct (String.leb a b) eqn:Eab, (String.leb b a) eqn:Eba; try reflexivity.
    + rewrite (String.leb_antisym a b Eab Eba). reflexivity.
    + apply leb_false in Eab. congruence.
  - destruct (String.leb b h) eqn:Ebh, (String.leb a h) eqn:Eah; simpl;
      rewrite ?Ebh, ?Eah.
    + destruct (String.leb a b) eqn:Eab, (String.leb b a) eqn:Eba; try reflexivity.
      * rewrite (String.leb_antisym a b Eab Eba). reflexivity.
      * apply leb_false in Eab. congruence.
    + destruct (String.leb a b) eqn:Eab; [|reflexivity].
      rewrite (leb_trans a b h Eab Ebh) in Eah. discriminate.
    + destruct (String.leb b a) eqn:Eba; [|reflexivity].
      rewrite (leb_trans b a h Eba Eah) in Ebh. discriminate.
    + rewrite IH. reflexivity.
Qed.

(** The sorted keys do not depend on the order of insertion. *)
Lemma sort_Permutation (l l' : list string) :
  Permutation l l' -> sort l = sort l'.
Proof.
  induction 1; simpl.
  - reflexivity.
  - congruence.
  - apply insert_insert.
  - congruence.
Qed.

Lemma getProp_not_key (x : list (string * value)) (k : string) :
  ~ In k (keys x) -> getProp x k = VUndefined.
Proof.
  intros Hn. unfold getProp.
  destruct (find (fun kv => String.eqb (fst kv) k) x) as [[k' v]|] eqn:E; [|reflexivity].
  apply find_some in E. destruct E as [Hin Hk]. simpl in Hk.
  apply String.eqb_eq in Hk. subst k'.
  exfalso. apply Hn. apply (in_map fst) in Hin. exact Hin.
Qed.

(** With distinct keys, a property read does not depend on the order of
    insertion. *)
Lemma getProp_Permutation (x x' : list (string * value)) (k : string) :
  Permutation x x' -> NoDup (keys x) -> getProp x k = getProp x' k.
Proof.
  induction 1 as [|[k1 v1] l l' Hp IH|[k1 v1] [k2 v2] l|l l' l'' Hp1 IH1 Hp2 IH2];
    intros Hnd.
  - reflexivity.
  - unfold getProp in *. simpl. destruct (String.eqb k1 k); [reflexivity|].
    apply IH. inversion Hnd. assumption.
  - unfold getProp. simpl.
    destruct (String.eqb_spec k2 k) as [E2|N2], (String.eqb_spec k1 k) as [E1|N1];
      try reflexivity.
    subst. inversion Hnd as [|? ? Hnotin _]. exfalso. apply Hnotin. left. reflexivity.
  - rewrite IH1 by exact Hnd. apply IH2.
    unfold keys in *. apply (Permutation_NoDup (l := map fst l)); [|exact Hnd].
    apply Permutation_map. exact Hp1.
Qed.

Lemma entries_Permutation (x x' : list (string * value)) :
  Permutation x x' -> NoDup (keys x) -> entries x = entries x'.
Proof.
  intros Hp Hnd. unfold entries.
  rewrite <- (sort_Permutation (keys x) (keys x'))
    by (apply Permutation_map; exact Hp).
  apply map_ext. intros k. f_equal. apply getProp_Permutation; assumption.
Qed.

(** ** The default comparator, one level at a time *)

Lemma default_step (n : nat) (x y : value) :
  Builder.get builder (S n) x y =
  if rank (categoryOf x) =? rank (categoryOf y)
  then within (Builder.get builder n) x y
  else Some (signOf (rank (categoryOf x) ?= rank (categoryOf y))).
Proof. destruct x, y; reflexivity. Qed.

Lemma rank_inj (c d : category) : rank c = rank d -> c = d.
Proof. destruct c, d; simpl; intros H; try reflexivity; discriminate. Qed.

(** Weak transitivity of [comparePrimitives] inside one of the
    categories it is registered for, the middle value being free of
    NaN. *)
Lemma comparePrimitives_trans (x y z : value) (a b r : Z) :
  categoryOf x = categoryOf y -> categoryOf y = categoryOf z ->
  nanFree y = true ->
  comparePrimitives x y = Some a -> comparePrimitives y z = Some b ->
  comparePrimitives x z = Some r ->
  a <= 0 -> b <= 0 -> r <= 0.
Proof.
  destruct x; destruct y; simpl; try discriminate; intros _;
    destruct z; simpl; try discriminate; intros _ Hy;
    try (erewrite !comparePrimitives_eval by (simpl; reflexivity);
         cbv beta iota delta [ToNumber];
         intros H1 H2 H3; inversion H1; inversion H2; inversion H3; subst;
         first [ apply string_sign_trans
               | apply numSign_trans; destruct n0; simpl; congruence
               | apply numSign_trans; destruct time0; simpl; congruence
               | apply numSign_trans; reflexivity
               | auto ]);
    try (intros H1; discriminate H1).
Qed.

Lemma default_zero (x y : value) : Builder.get builder O x y = None.
Proof. reflexivity. Qed.

(** The default comparator is antisymmetric at every budget. *)
Lemma default_antisym (n : nat) :
  forall x y r,
    Builder.get builder n x y = Some r -> Builder.get builder n y x = Some (- r).
Proof.
  induction n as [|n IH]; intros x y r; [rewrite default_zero; discriminate|].
  rewrite !default_step.
  rewrite (Z.eqb_sym (rank (categoryOf y))).
  destruct (Z.eqb_spec (rank (categoryOf x)) (rank (categoryOf y))) as [E|N].
  - apply rank_inj in E.
    destruct x; destruct y; try discriminate E; simpl;
      try apply comparePrimitives_antisym;
      try (intros H; inversion H; reflexivity).
    + rewrite !compareArrays_lex. apply lex_antisym. exact IH.
    + rewrite !compareObjects_lex. apply lex_antisym.
      apply pairCompare_antisym. exact IH.
  - rewrite (Z.compare_antisym (rank (categoryOf x)) (rank (categoryOf y))).
    rewrite signOf_opp. intros H; inversion H; reflexivity.
Qed.

(** With a budget above the nesting of [x], comparing [x] with itself
    gives 0. *)
Lemma default_refl (n : nat) :
  forall x, (depth x < n)%nat -> Builder.get builder n x x = Some 0.
Proof.
  induction n as [|n IH]; intros x Hd; [lia|].
  rewrite default_step, Z.eqb_refl.
  destruct x; simpl; try reflexivity;
    try (erewrite comparePrimitives_eval by (simpl; reflexivity);
         cbv beta iota delta [ToNumber]; f_equal;
         first [ rewrite string_compare_refl; reflexivity
               | unfold numSign; rewrite numLess_irrefl; reflexivity ]).
  - rewrite compareArrays_lex. apply lex_refl.
    apply depth_items in Hd. revert Hd. apply Forall_impl. exact IH.
  - rewrite compareObjects_lex. apply lex_refl.
    assert (Hn : (0 < n)%nat) by (simpl in Hd; lia).
    apply depth_props in Hd.
    apply (entries_Forall (fun v => (depth v < n)%nat)) in Hd; [|exact Hn].
    revert Hd. apply Forall_impl. intros a Ha.
    apply pairCompare_refl. apply IH. exact Ha.
Qed.

(** With a budget above the nesting of [x], the default comparator
    returns. *)
Lemma default_total (n : nat) :
  forall x y, (depth x < n)%nat -> exists r, Builder.get builder n x y = Some r.
Proof.
  induction n as [|n IH]; intros x y Hd; [lia|].
  rewrite default_step.
  destruct (Z.eqb_spec (rank (categoryOf x)) (rank (categoryOf y))) as [E|N]; [|eauto].
  apply rank_inj in E.
  destruct x; destruct y; try discriminate E; simpl; eauto;
    try (apply comparePrimitives_total; reflexivity).
  - rewrite compareArrays_lex. apply lex_total.
    apply depth_items in Hd. revert Hd. apply Forall_impl. intros a Ha b. auto.
  - rewrite compareObjects_lex. apply lex_total.
    assert (Hn : (0 < n)%nat) by (simpl in Hd; lia).
    apply depth_props in Hd.
    apply (entries_Forall (fun v => (depth v < n)%nat)) in Hd; [|exact Hn].
    revert Hd. apply Forall_impl. intros a Ha.
    apply pairCompare_total. intros v. apply IH. exact Ha.
Qed.

(** [compare] is the result of the closure at every sufficient budget. *)
Lemma compare_get (n : nat) (x y : value) :
  (depth x < n)%nat -> Builder.get builder n x y = Some (compare x y).
Proof.
  intros Hd. unfold compare.
  destruct (default_total (S (depth x)) x y) as [r Hr]; [lia|].
  rewrite Hr.
  apply (closure_mono_le _ (S (depth x)) n); [lia|exact Hr].
Qed.

(** Weak transitivity of the default comparator on values free of
    NaN. *)
Lemma default_trans (n : nat) :
  forall x y z a b r,
    nanFree x = true -> nanFree y = true -> nanFree z = true ->
    Builder.get builder n x y = Some a ->
    Builder.get builder n y z = Some b ->
    Builder.get builder n x z = Some r ->
    a <= 0 -> b <= 0 -> r <= 0.
Proof.
  induction n as [|n IH]; intros x y z a b r Fx Fy Fz;
    [rewrite default_zero; discriminate|].
  rewrite !default_step.
  destruct (Z.eqb_spec (rank (categoryOf x)) (rank (categoryOf y))) as [E1|N1];
    destruct (Z.eqb_spec (rank (categoryOf y)) (rank (categoryOf z))) as [E2|N2];
    destruct (Z.eqb_spec (rank (categoryOf x)) (rank (categoryOf z))) as [E3|N3];
    try lia;
    try (intros H1 H2 H3; inversion H1; inversion H2; inversion H3;
         repeat match goal with
                | H : context [?u ?= ?v] |- _ => destruct (Z.compare_spec u v)
                | |- context [?u ?= ?v] => destruct (Z.compare_spec u v)
                end; simpl in *; lia).
  apply rank_inj in E1, E2. clear E3.
  destruct x; destruct y; try discriminate E1; destruct z; try discriminate E2;
    simpl within;
    try (apply comparePrimitives_trans; (reflexivity || assumption));
    try (intros H1 H2 H3; inversion H1; inversion H2; inversion H3; lia).
  - rewrite !compareArrays_lex.
    apply (lex_trans _ (fun v => nanFree v = true) (default_antisym n));
      try (apply nanFree_items; assumption).
    exact IH.
  - rewrite !compareObjects_lex.
    apply (lex_trans _ (fun kv => nanFree (snd kv) = true)
             (pairCompare_antisym _ (default_antisym n)));
      try (apply (entries_Forall (fun v => nanFree v = true)); [reflexivity|];
           eapply nanFree_props; eassumption).
    apply (pairCompare_trans _ (fun v => nanFree v = true)). exact IH.
Qed.

(** Key-order independence in general: two objects with the same
    properties, inserted in any two orders, compare as equal. *)
Lemma compare_key_order_independent (class class' : option string)
  (props props' : list (string * value)) :
  Permutation props props' -> NoDup (keys props) ->
  compare (VObject class props) (VObject class' props') = 0.
Proof.
  intros Hp Hnd.
  pose (n := depth (VObject class props)).
  assert (H : Builder.get builder (S n) (VObject class props) (VObject class' props')
              = Builder.get builder (S n) (VObject class props) (VObject class props)).
  { rewrite !default_step. simpl within.
    change (rank (categoryOf (VObject class props)) =?
            rank (categoryOf (VObject class' props'))) with true.
    change (rank (categoryOf (VObject class props)) =?
            rank (categoryOf (VObject class props))) with true.
    cbv iota. rewrite !compareObjects_lex.
    rewrite <- (entries_Permutation props props' Hp Hnd). reflexivity. }
  rewrite default_refl in H by (unfold n; lia).
  rewrite (compare_get (S n)) in H by (unfold n; lia).
  inversion H. reflexivity.
Qed.

(** ** Order laws of the default comparator *)

(** C3 — Reflexivity: for the default comparator and every value [x],
    [compare(x, x) = 0], the closure returning this 0 with a budget that
    covers the nesting of [x]; in particular [compare(NaN, NaN) = 0]. *)
Theorem compare_reflexive (x : value) :
  compare x x = 0 /\
  Builder.get builder (S (depth x)) x x = Some 0 /\
  compare (VNumber NaN) (VNumber NaN) = 0.
Proof.
  assert (H : Builder.get builder (S (depth x)) x x = Some 0)
    by (apply default_refl; lia).
  repeat split; try exact H.
  unfold compare. rewrite H. reflexivity.
Qed.

(** C2 — Antisymmetry: for the default comparator and every pair of
    values, [compare(x, y) = -compare(y, x)] as integers. *)
Theorem compare_antisymmetric (x y : value) : compare x y = - compare y x.
Proof.
  pose (n := S (Nat.max (depth x) (depth y))).
  assert (Hxy : Builder.get builder n x y = Some (compare x y))
    by (apply compare_get; unfold n; lia).
  assert (Hyx : Builder.get builder n y x = Some (compare y x))
    by (apply compare_get; unfold n; lia).
  apply default_antisym in Hyx. rewrite Hxy in Hyx.
  inversion Hyx. reflexivity.
Qed.

(** C1, as stated, fails: a NaN compares as equal to every number, so
    1 and 2 are both "equal" to NaN without being equal to each other,
    and an array that starts with NaN sits below [[3, 2]], which sits
    below [[4, 0]], while it sits above [[4, 0]]. *)
Lemma compare_not_transitive_on_NaN :
  (compare (int 1) (VNumber NaN) = 0 /\
   compare (VNumber NaN) (int 2) = 0 /\
   compare (int 1) (int 2) = -1) /\
  (compare (VArray [VNumber NaN; int 1]) (VArray [int 3; int 2]) = -1 /\
   compare (VArray [int 3; int 2]) (VArray [int 4; int 0]) = -1 /\
   compare (VArray [VNumber NaN; int 1]) (VArray [int 4; int 0]) = 1) /\
  ~ (forall x y z, compare x y = 0 -> compare y z = 0 -> compare x z = 0) /\
  ~ (forall x y z, compare x y < 0 -> compare y z < 0 -> compare x z < 0).
Proof.
  split; [repeat split; reflexivity|].
  split; [repeat split; reflexivity|].
  split.
  - intros H.
    specialize (H (int 1) (VNumber NaN) (int 2) eq_refl eq_refl). discriminate H.
  - intros H.
    specialize (H (VArray [VNumber NaN; int 1]) (VArray [int 3; int 2])
                  (VArray [int 4; int 0]) eq_refl eq_refl).
    discriminate H.
Qed.

(** C1, amended — Transitivity away from NaN: for the default
    comparator and values [x], [y], [z] that contain no NaN number and
    no invalid date, [compare(x,y) < 0] and [compare(y,z) < 0] give
    [compare(x,z) < 0]; likewise for [> 0] and for [= 0]. *)
Theorem compare_transitive_nanFree (x y z : value) :
  nanFree x = true -> nanFree y = true -> nanFree z = true ->
  (compare x y < 0 -> compare y z < 0 -> compare x z < 0) /\
  (compare x y > 0 -> compare y z > 0 -> compare x z > 0) /\
  (compare x y = 0 -> compare y z = 0 -> compare x z = 0).
Proof.
  intros Fx Fy Fz.
  pose (n := S (Nat.max (depth x) (Nat.max (depth y) (depth z)))).
  assert (Hxy : Builder.get builder n x y = Some (compare x y))
    by (apply compare_get; unfold n; lia).
  assert (Hyz : Builder.get builder n y z = Some (compare y z))
    by (apply compare_get; unfold n; lia).
  assert (Hxz : Builder.get builder n x z = Some (compare x z))
    by (apply compare_get; unfold n; lia).
  pose proof (fun a b c => weak_lt_l (Builder.get builder n) (fun v => nanFree v = true)
    (default_antisym n) (default_trans n) a b c) as Hlt.
  pose proof (fun a b c => weak_eq (Builder.get builder n) (fun v => nanFree v = true)
    (default_antisym n) (default_trans n) a b c) as Heq.
  repeat split.
  - intros H1 H2. apply (Hlt x y z _ _ _ Fx Fy Fz Hxy Hyz Hxz); lia.
  - intros H1 H2.
    pose proof (default_antisym n _ _ _ Hxy) as Hyx.
    pose proof (default_antisym n _ _ _ Hyz) as Hzy.
    pose proof (default_antisym n _ _ _ Hxz) as Hzx.
    pose proof (Hlt z y x _ _ _ Fz Fy Fx Hzy Hyx Hzx). lia.
  - intros H1 H2. apply (Heq x y z _ _ _ Fx Fy Fz Hxy Hyz Hxz); assumption.
Qed.

Lemma compare_transitive_nanFree_witness :
  nanFree (VArray [int 1; VString "a"]) = true /\
  nanFree (VArray [int 1; VString "b"]) = true /\
  nanFree (VArray [int 2; obj [("k", VDate (Finite 0))]]) = true /\
  (compare (VArray [int 1; VString "a"]) (VArray [int 1; VString "b"]) < 0 ->
   compare (VArray [int 1; VString "b"]) (VArray [int 2; obj [("k", VDate (Finite 0))]]) < 0 ->
   compare (VArray [int 1; VString "a"]) (VArray [int 2; obj [("k", VDate (Finite 0))]]) < 0).
Proof.
  split; [reflexivity|]. split; [reflexivity|]. split; [reflexivity|].
  apply (compare_transitive_nanFree
           (VArray [int 1; VString "a"]) (VArray [int 1; VString "b"])
           (VArray [int 2; obj [("k", VDate (Finite 0))]])); reflexivity.
Defined.

(** C9 — NaN against any number: for the default comparator and every
    number [r], infinite or finite or NaN, [compare(NaN, r) = 0] and
    [compare(r, NaN) = 0]. *)
Theorem compare_NaN_number (r : number) :
  compare (VNumber NaN) (VNumber r) = 0 /\
  compare (VNumber r) (VNumber NaN) = 0 /\
  Builder.get builder 1 (VNumber NaN) (VNumber r) = Some 0 /\
  Builder.get builder 1 (VNumber r) (VNumber NaN) = Some 0.
Proof.
  assert (H1 : Builder.get builder 1 (VNumber NaN) (VNumber r) = Some 0).
  { rewrite default_step. simpl. rewrite comparePrimitives_numbers.
    unfold numSign. destruct r; reflexivity. }
  assert (H2 : Builder.get builder 1 (VNumber r) (VNumber NaN) = Some 0).
  { rewrite default_step. simpl. rewrite comparePrimitives_numbers.
    unfold numSign. destruct r; reflexivity. }
  unfold compare. simpl depth. rewrite H1, H2. repeat split.
Qed.

(** ** Precedence resolution *)

(** C4 — Precedence resolution of a built comparator: with [i] and [j]
    the highest indices of rules accepting [x] and [y] (-1 if none),
    the result is [comparePrimitives(i, j)] when [i <> j]; the rule's
    comparator applied to [(x, y)] when [i = j >= 0] and the rule has
    one; otherwise the structural comparison of two objects or of two
    arrays, and 0 when neither value is an object or an array. *)
Theorem get_precedence_resolution
  (b : Builder.t) (n : nat) (x y : value) (i j : Z) :
  highestMatch (Builder.plugins b) x i ->
  highestMatch (Builder.plugins b) y j ->
  (i <> j -> Builder.get b (S n) x y = comparePrimitives (num i) (num j)) /\
  (i = j ->
   forall rule cmp,
     0 <= i ->
     nth_error (Builder.plugins b) (Z.to_nat i) = Some rule ->
     Plugin.compare rule = Some cmp ->
     Builder.get b (S n) x y = cmp x y) /\
  (i = j ->
   (i = -1 \/
    exists rule,
      nth_error (Builder.plugins b) (Z.to_nat i) = Some rule /\
      Plugin.compare rule = None) ->
   (isObject x = true -> isObject y = true ->
    Builder.get b (S n) x y =
    compareObjects (ownProps x) (ownProps y) (Builder.get b n)) /\
   (isArray x = true -> isArray y = true ->
    Builder.get b (S n) x y =
    compareArrays (elements x) (elements y) (Builder.get b n)) /\
   (isObject x = false -> isArray x = false ->
    isObject y = false -> isArray y = false ->
    Builder.get b (S n) x y = Some 0)).
Proof.
  intros Hx Hy. unfold Builder.get.
  rewrite closure_S, (classify_highest _ x y i j Hx Hy).
  split; [|split].
  - intros Hne. destruct (Z.eqb_spec i j); [contradiction|reflexivity].
  - intros <- rule cmp Hpos Hnth Hcmp.
    rewrite Z.eqb_refl. simpl negb. cbv iota.
    destruct (Z.leb_spec 0 i); [|lia].
    rewrite Hnth, Hcmp. reflexivity.
  - intros <- Hnone. rewrite Z.eqb_refl. simpl negb. cbv iota.
    assert (Hsel : (if 0 <=? i
                    then rule <- nth_error (Builder.plugins b) (Z.to_nat i) ;;
                         Plugin.compare rule
                    else None) = None).
    { destruct Hnone as [->|[rule [Hnth Hcmp]]]; [reflexivity|].
      rewrite Hnth, Hcmp. destruct (0 <=? i); reflexivity. }
    rewrite Hsel. repeat split.
    + intros -> ->. reflexivity.
    + intros Ax Ay. destruct x; try discriminate Ax.
      destruct y; try discriminate Ay. reflexivity.
    + intros -> -> _ _. reflexivity.
Qed.

Lemma get_precedence_resolution_witness :
  highestMatch (Builder.plugins builder) (int 1) 2 /\
  highestMatch (Builder.plugins builder) (VString "a") 3 /\
  Builder.get builder 1 (int 1) (VString "a") = comparePrimitives (num 2) (num 3).
Proof.
  assert (H1 : highestMatch (Builder.plugins builder) (int 1) 2)
    by exact (lastMatch_highest (Builder.plugins builder) (int 1)).
  assert (H2 : highestMatch (Builder.plugins builder) (VString "a") 3)
    by exact (lastMatch_highest (Builder.plugins builder) (VString "a")).
  split; [exact H1|]. split; [exact H2|].
  apply (get_precedence_resolution builder 0 (int 1) (VString "a") 2 3 H1 H2).
  lia.
Defined.

(** C10 — A comparator built from the empty builder: an object against
    a value that is neither an object nor an array gives -1 and, the
    other way round, 0; an array against such a value gives 1 and, the
    other way round, 0. *)
Theorem create_get_structural_fallback (n : nat) (x y : value) :
  isObject y = false -> isArray y = false ->
  (isObject x = true ->
   Builder.get Builder.create (S n) x y = Some (-1) /\
   Builder.get Builder.create (S n) y x = Some 0) /\
  (isArray x = true ->
   Builder.get Builder.create (S n) x y = Some 1 /\
   Builder.get Builder.create (S n) y x = Some 0).
Proof.
  intros Oy Ay. unfold Builder.get. rewrite !closure_S. simpl.
  rewrite Oy, Ay.
  split; intros Hx; destruct x; try discriminate Hx; simpl; split; reflexivity.
Qed.

Lemma create_get_structural_fallback_witness :
  isObject (int 5) = false /\ isArray (int 5) = false /\
  (isObject (obj [("a", int 1)]) = true ->
   Builder.get Builder.create 1 (obj [("a", int 1)]) (int 5) = Some (-1) /\
   Builder.get Builder.create 1 (int 5) (obj [("a", int 1)]) = Some 0) /\
  (isArray (VArray [VNull]) = true ->
   Builder.get Builder.create 1 (VArray [VNull]) (int 5) = Some 1 /\
   Builder.get Builder.create 1 (int 5) (VArray [VNull]) = Some 0).
Proof.
  split; [reflexivity|]. split; [reflexivity|]. split.
  - apply (create_get_structural_fallback 0 (obj [("a", int 1)]) (int 5)); reflexivity.
  - apply (create_get_structural_fallback 0 (VArray [VNull]) (int 5)); reflexivity.
Defined.

(** C5 — Category precedence: under the default comparator two values
    of different default categories are ordered by the positions of
    their categories in absent-marker < null < number < string <
    object < array < boolean < date < pattern, whatever their content:
    -1 when the category of [x] is the earlier one, 1 when it is the
    later one.  The position of the category of a value is the highest
    index of a default rule accepting it. *)
Theorem compare_category_precedence (x y : value) :
  highestMatch (Builder.plugins builder) x (rank (categoryOf x)) /\
  (categoryOf x <> categoryOf y ->
   (rank (categoryOf x) < rank (categoryOf y) /\ compare x y = -1) \/
   (rank (categoryOf y) < rank (categoryOf x) /\ compare x y = 1)).
Proof.
  split.
  - rewrite <- lastMatch_default. apply lastMatch_highest.
  - intros Hne.
    assert (Hr : rank (categoryOf x) <> rank (categoryOf y))
      by (intros E; apply Hne, rank_inj, E).
    unfold compare. rewrite default_step.
    destruct (Z.eqb_spec (rank (categoryOf x)) (rank (categoryOf y))); [contradiction|].
    destruct (Z.compare_spec (rank (categoryOf x)) (rank (categoryOf y)));
      [contradiction|left|right]; split; auto.
Qed.

Lemma compare_category_precedence_witness :
  categoryOf (obj [("z", VRegExp "x" "g")]) <> categoryOf (VArray []) /\
  ((rank (categoryOf (obj [("z", VRegExp "x" "g")])) < rank (categoryOf (VArray [])) /\
    compare (obj [("z", VRegExp "x" "g")]) (VArray []) = -1) \/
   (rank (categoryOf (VArray [])) < rank (categoryOf (obj [("z", VRegExp "x" "g")])) /\
    compare (obj [("z", VRegExp "x" "g")]) (VArray []) = 1)).
Proof.
  assert (H : categoryOf (obj [("z", VRegExp "x" "g")]) <> categoryOf (VArray []))
    by discriminate.
  split; [exact H|].
  exact (proj2 (compare_category_precedence (obj [("z", VRegExp "x" "g")]) (VArray [])) H).
Defined.

(** ** Extending the default builder *)

(** C7 — A custom type registered after the built-in rules: under the
    comparator built from [builder.ifType(isCustom, compareCustom)],
    every value accepted by [isCustom] (also one that an earlier
    predicate accepts, such as a class instance seen as an object) is
    greater than every value that [isCustom] rejects, and two accepted
    values are compared by [compareCustom]. *)
Theorem extended_builder_custom_type
  (isCustom : value -> bool) (compareCustom : CompareFn) (n : nat) (v w : value) :
  isCustom v = true ->
  (isCustom w = false ->
   Builder.get (Builder.ifType builder isCustom compareCustom) (S n) v w = Some 1 /\
   Builder.get (Builder.ifType builder isCustom compareCustom) (S n) w v = Some (-1)) /\
  (isCustom w = true ->
   Builder.get (Builder.ifType builder isCustom compareCustom) (S n) v w
   = compareCustom v w).
Proof.
  intros Hv. unfold Builder.get. rewrite !closure_S, !classify_lastMatch.
  change (Builder.plugins (Builder.ifType builder isCustom compareCustom))
    with (Builder.plugins builder ++ [Plugin.make isCustom (Some compareCustom)]).
  rewrite !lastMatch_app, !lastMatch_default.
  change (0 + Z.of_nat (List.length (Builder.plugins builder))) with 9.
  simpl lastMatch. rewrite Hv.
  split; intros Hw; rewrite Hw.
  - assert (Hr : 0 <= rank (categoryOf w) <= 8) by (destruct w; simpl; lia).
    destruct (Z.eqb_spec 9 (rank (categoryOf w))); [lia|].
    destruct (Z.eqb_spec (rank (categoryOf w)) 9); [lia|].
    simpl negb. cbv iota. rewrite !comparePrimitives_int.
    destruct (Z.compare_spec 9 (rank (categoryOf w))); try lia.
    destruct (Z.compare_spec (rank (categoryOf w)) 9); try lia.
    split; reflexivity.
  - reflexivity.
Qed.

Lemma extended_builder_custom_type_witness :
  isBox (box 1) = true /\
  (isBox (obj [("value", int 7)]) = false ->
   Builder.get (Builder.ifType builder isBox compareBox) 1 (box 1) (obj [("value", int 7)])
   = Some 1 /\
   Builder.get (Builder.ifType builder isBox compareBox) 1 (obj [("value", int 7)]) (box 1)
   = Some (-1)) /\
  (isBox (box 2) = true ->
   Builder.get (Builder.ifType builder isBox compareBox) 1 (box 1) (box 2)
   = compareBox (box 1) (box 2)).
Proof.
  split; [reflexivity|].
  split.
  - apply (extended_builder_custom_type isBox compareBox 0 (box 1) (obj [("value", int 7)])).
    reflexivity.
  - apply (extended_builder_custom_type isBox compareBox 0 (box 1) (box 2)). reflexivity.
Defined.

(** ** Object comparison *)

(** C6 — [compareObjects] sorts the keys of each object, walks the two
    sorted key sequences in lockstep, lets the keys decide before the
    values at each position and the key count decide at the end.  So
    [compare({a:1,b:2}, {b:2,a:1}) = 0], and
    [compare({a:1,b:1}, {a:1,c:1}) = -1], whatever the values stored
    under [b] and [c]. *)
Theorem compareObjects_sorted_lockstep :
  (forall x y compareValue,
     compareObjects x y compareValue = compareObjects_spec x y compareValue) /\
  compare (obj [("a", int 1); ("b", int 2)]) (obj [("b", int 2); ("a", int 1)]) = 0 /\
  compare (obj [("a", int 1); ("b", int 1)]) (obj [("a", int 1); ("c", int 1)]) = -1 /\
  (forall v w,
     compare (obj [("a", int 1); ("b", v)]) (obj [("a", int 1); ("c", w)]) = -1).
Proof.
  split; [exact compareObjects_walk|].
  split; [reflexivity|]. split; [reflexivity|].
  intros v w.
  pose (X := obj [("a", int 1); ("b", v)]).
  pose (Y := obj [("a", int 1); ("c", w)]).
  assert (H : Builder.get builder (S (S (depth v))) X Y = Some (-1)).
  { rewrite default_step. simpl within.
    change (rank (categoryOf X) =? rank (categoryOf Y)) with true. cbv iota.
    rewrite compareObjects_walk. unfold compareObjects_spec.
    assert (Hc : Builder.get builder (S (depth v)) (int 1) (int 1) = Some 0)
      by (apply default_refl; simpl; lia).
    revert Hc. generalize (Builder.get builder (S (depth v))). intros c Hc.
    vm_compute in Hc. vm_compute. rewrite Hc. reflexivity. }
  rewrite (compare_get (S (S (depth v))) X Y) in H.
  - inversion H. reflexivity.
  - unfold X. simpl. lia.
Qed.

(** ** Builders in the store *)

Lemma read_alloc_old (h : Store.heap) (array : list Plugin.t) (a : Store.address) :
  (a < List.length h)%nat ->
  Store.read (fst (Store.alloc h array)) a = Store.read h a.
Proof. intros Ha. unfold Store.read, Store.alloc. simpl. apply app_nth1. exact Ha. Qed.

Lemma read_alloc_new (h : Store.heap) (array : list Plugin.t) :
  Store.read (fst (Store.alloc h array)) (snd (Store.alloc h array)) = array.
Proof. unfold Store.read, Store.alloc. simpl. apply nth_middle. Qed.

(** Every operation allocates one array and writes nowhere else. *)
Lemma perform_alloc (op : Store.operation) (h : Store.heap) :
  exists array,
    Store.perform op h = (fst (Store.alloc h array), Store.construct (snd (Store.alloc h array)))
    /\ match Store.appended op with
       | Some (receiver, plugin) =>
           array = Store.read h (Store.plugins receiver) ++ [plugin]
       | None => array = []
       end.
Proof.
  destruct op; simpl;
    unfold Store.ifType, Store.thenTypeObject, Store.thenTypeArray, Store.extend,
      Store.create; simpl; eexists; split; reflexivity.
Qed.

Lemma perform_length (op : Store.operation) (h : Store.heap) :
  List.length (fst (Store.perform op h)) = S (List.length h).
Proof.
  destruct (perform_alloc op h) as [array [-> _]].
  unfold Store.alloc. simpl. rewrite length_app. simpl. lia.
Qed.

Lemma perform_frame (op : Store.operation) (h : Store.heap) (this : Store.instance) :
  Store.allocated h this ->
  Store.read (fst (Store.perform op h)) (Store.plugins this)
  = Store.read h (Store.plugins this).
Proof.
  intros Ha. destruct (perform_alloc op h) as [array [-> _]].
  apply read_alloc_old. exact Ha.
Qed.

Lemma performAll_frame (ops : list Store.operation) :
  forall h this,
    Store.allocated h this ->
    Store.read (Store.performAll ops h) (Store.plugins this)
    = Store.read h (Store.plugins this).
Proof.
  induction ops as [|op ops IH]; intros h this Ha; simpl; [reflexivity|].
  rewrite IH.
  - apply perform_frame. exact Ha.
  - unfold Store.allocated in *. rewrite perform_length. lia.
Qed.

(** C8 — Builders are immutable and built comparators are frozen: an
    operation ([ifType], [thenTypeObject], [thenTypeArray]) returns a
    new builder object whose rule list is the receiver's list extended
    by one rule, and leaves the rule list of every existing builder,
    the receiver included, as it was; the comparator that [get]
    returned for an existing builder gives the same results after any
    sequence of further builder operations. *)
Theorem builder_operations_frame (h : Store.heap) (this : Store.instance) :
  Store.allocated h this ->
  (forall op,
     Store.read (fst (Store.perform op h)) (Store.plugins this)
     = Store.read h (Store.plugins this) /\
     ~ Store.allocated h (snd (Store.perform op h)) /\
     Store.allocated (fst (Store.perform op h)) (snd (Store.perform op h)) /\
     forall receiver plugin,
       Store.appended op = Some (receiver, plugin) ->
       Store.read (fst (Store.perform op h)) (Store.plugins (snd (Store.perform op h)))
       = Store.read h (Store.plugins receiver) ++ [plugin]) /\
  (forall predicate compare,
     Store.contents (fst (Store.ifType this predicate compare h))
                    (snd (Store.ifType this predicate compare h))
     = Builder.ifType (Store.contents h this) predicate compare) /\
  (forall ops fuel x y,
     Store.get this (Store.performAll ops h) fuel x y = Store.get this h fuel x y).
Proof.
  intros Ha. split; [|split].
  - intros op. split; [apply perform_frame; exact Ha|].
    destruct (perform_alloc op h) as [array [E Harr]]. rewrite E.
    split; [|split].
    + unfold Store.allocated, Store.alloc. simpl. lia.
    + unfold Store.allocated, Store.alloc. simpl. rewrite length_app. simpl. lia.
    + intros receiver plugin Happ. rewrite Happ in Harr. subst array.
      apply read_alloc_new.
  - intros predicate compare.
    unfold Store.contents, Store.ifType, Store.extend, Builder.ifType. simpl.
    f_equal. exact (read_alloc_new h _).
  - intros ops fuel x y. unfold Store.get.
    rewrite (performAll_frame ops h this Ha). reflexivity.
Qed.

Lemma builder_operations_frame_witness :
  Store.allocated sampleHeap (Store.construct 1%nat) /\
  (forall ops fuel x y,
     Store.get (Store.construct 1%nat) (Store.performAll ops sampleHeap) fuel x y
     = Store.get (Store.construct 1%nat) sampleHeap fuel x y).
Proof.
  assert (Ha : Store.allocated sampleHeap (Store.construct 1%nat))
    by (unfold Store.allocated; simpl; lia).
  split; [exact Ha|].
  exact (proj2 (proj2 (builder_operations_frame sampleHeap (Store.construct 1%nat) Ha))).
Defined.

(** ** Further facts on the comparison functions *)

Lemma signOf_threeValued (c : comparison) : threeValued (signOf c).
Proof. unfold threeValued. destruct c; simpl; auto. Qed.

Lemma numSign_threeValued (a b : number) : threeValued (numSign a b).
Proof.
  unfold threeValued, numSign.
  destruct (numLess a b); [|destruct (numLess b a)]; auto.
Qed.

Lemma comparePrimitives_range (x y : value) (r : Z) :
  comparePrimitives x y = Some r -> threeValued r.
Proof.
  intros H.
  destruct (ToPrimitive x) as [px|] eqn:Hx;
    [|unfold comparePrimitives, lessThan in H; rewrite Hx in H; discriminate].
  destruct (ToPrimitive y) as [py|] eqn:Hy;
    [|unfold comparePrimitives, lessThan in H; rewrite Hx, Hy in H; discriminate].
  rewrite (comparePrimitives_eval x y px py Hx Hy) in H.
  destruct px, py; simpl in H; inversion H;
    first [apply numSign_threeValued | apply signOf_threeValued].
Qed.

Lemma lex_range {A : Type} (c : A -> A -> option Z) (xs ys : list A) (r : Z) :
  (forall a b e, c a b = Some e -> threeValued e) ->
  lex c xs ys = Some r -> threeValued r.
Proof.
  intros Hc. revert ys.
  induction xs as [|a xs IH]; intros [|b ys]; simpl;
    try (intros H; inversion H; unfold threeValued; auto; fail).
  destruct (c a b) as [e|] eqn:E; [|discriminate].
  destruct (e =? 0); simpl.
  - apply IH.
  - intros H; inversion H; subst. exact (Hc _ _ _ E).
Qed.

Lemma pairCompare_range (c : CompareFn) :
  (forall a b e, c a b = Some e -> threeValued e) ->
  forall a b e, pairCompare c a b = Some e -> threeValued e.
Proof.
  intros Hc a b e. unfold pairCompare.
  destruct (String.compare (fst a) (fst b));
    try (intros H; inversion H; unfold threeValued; auto; fail).
  apply Hc.
Qed.

Lemma default_range (n : nat) :
  forall x y r, Builder.get builder n x y = Some r -> threeValued r.
Proof.
  induction n as [|n IH]; intros x y r; [rewrite default_zero; discriminate|].
  rewrite default_step.
  destruct (rank (categoryOf x) =? rank (categoryOf y));
    [|intros H; inversion H; apply signOf_threeValued].
  destruct x; destruct y; simpl within;
    try (intros H; inversion H; unfold threeValued; auto; fail);
    try apply comparePrimitives_range.
  - rewrite compareArrays_lex. apply lex_range. exact IH.
  - rewrite compareObjects_lex. apply lex_range. apply pairCompare_range. exact IH.
Qed.

Lemma lex_prefix {A : Type} (c : A -> A -> option Z) (xs : list A) (y : A) (ys : list A) :
  Forall (fun a => c a a = Some 0) xs ->
  lex c xs (xs ++ y :: ys) = Some (-1) /\ lex c (xs ++ y :: ys) xs = Some 1.
Proof.
  induction 1 as [|a xs Ha F IH]; simpl; [split; reflexivity|].
  rewrite Ha. simpl. exact IH.
Qed.

(** A budget above the smaller of the two nesting depths is enough. *)
Lemma compare_get_min (n : nat) (x y : value) :
  (Nat.min (depth x) (depth y) < n)%nat ->
  Builder.get builder n x y = Some (compare x y).
Proof.
  intros Hn.
  destruct (Nat.lt_ge_cases (depth x) n) as [Hx|Hx]; [apply compare_get; exact Hx|].
  assert (Hy : (depth y < n)%nat) by lia.
  pose (m := S (Nat.max (depth x) n)).
  pose proof (compare_get n y x Hy) as Hyx.
  apply default_antisym in Hyx. rewrite Hyx. f_equal.
  assert (H1 : Builder.get builder m x y = Some (- compare y x))
    by (apply (closure_mono_le _ n m); [unfold m; lia|exact Hyx]).
  rewrite (compare_get m x y) in H1 by (unfold m; lia).
  inversion H1. reflexivity.
Qed.

(** X1 — [compareArrays] is the lexicographic comparison: it returns
    the first non-zero item comparison in index order and, when the
    items agree over the common length, -1, 0 or 1 as [x] is shorter
    than, as long as, or longer than [y]. *)
Theorem compareArrays_first_difference (x y : list value) (compareItems : CompareFn) :
  compareArrays x y compareItems = lex compareItems x y.
Proof. apply compareArrays_lex. Qed.

(** X2 — Under the default comparator an array is below each of its
    proper extensions, whatever its items are (NaN included) and
    whatever is appended. *)
Theorem compare_array_prefix (items : list value) (next : value) (more : list value) :
  compare (VArray items) (VArray (items ++ next :: more)) = -1 /\
  compare (VArray (items ++ next :: more)) (VArray items) = 1.
Proof.
  pose (n := depth (VArray items)).
  assert (F : Forall (fun a => Builder.get builder n a a = Some 0) items).
  { assert (Hd : (depth (VArray items) < S n)%nat) by (unfold n; lia).
    apply depth_items in Hd. revert Hd. apply Forall_impl.
    intros a Ha. apply default_refl. exact Ha. }
  destruct (lex_prefix _ items next more F) as [H1 H2].
  assert (G1 : Builder.get builder (S n) (VArray items) (VArray (items ++ next :: more))
               = Some (-1)).
  { rewrite default_step. simpl. rewrite compareArrays_lex. exact H1. }
  assert (G2 : Builder.get builder (S n) (VArray (items ++ next :: more)) (VArray items)
               = Some 1).
  { rewrite default_step. simpl. rewrite compareArrays_lex. exact H2. }
  split.
  - rewrite (compare_get (S n)) in G1 by (unfold n; lia). inversion G1. reflexivity.
  - rewrite (compare_get_min (S n)) in G2 by (unfold n; lia).
    inversion G2. reflexivity.
Qed.

(** X3 — The default comparator only returns -1, 0 or 1. *)
Theorem compare_three_valued (x y : value) :
  compare x y = -1 \/ compare x y = 0 \/ compare x y = 1.
Proof.
  exact (default_range (S (depth x)) x y (compare x y)
           (compare_get (S (depth x)) x y (Nat.lt_succ_diag_r _))).
Qed.

(** X4 — The default comparator terminates on any two values: it
    returns [compare x y] with every recursion budget above the nesting
    depth of [x] or above the nesting depth of [y]. *)
Theorem compare_terminates (n : nat) (x y : value) :
  (Nat.min (depth x) (depth y) < n)%nat ->
  Builder.get builder n x y = Some (compare x y).
Proof. apply compare_get_min. Qed.

Lemma compare_terminates_witness :
  (Nat.min (depth (VArray [VArray [VArray [int 1]]])) (depth (VArray [int 2])) < 2)%nat /\
  Builder.get builder 2 (VArray [VArray [VArray [int 1]]]) (VArray [int 2])
  = Some (compare (VArray [VArray [VArray [int 1]]]) (VArray [int 2])).
Proof.
  split; [simpl; lia|].
  apply (compare_terminates 2 (VArray [VArray [VArray [int 1]]]) (VArray [int 2])).
  simpl. lia.
Defined.

(** ** What a result of 0 means *)

Lemma signOf_zero (c : comparison) : signOf c = 0 -> c = Eq.
Proof. destruct c; simpl; intros H; try reflexivity; discriminate H. Qed.

Lemma lex_zero {A : Type} (c : A -> A -> option Z) (xs ys : list A) :
  lex c xs ys = Some 0 -> Forall2 (fun a b => c a b = Some 0) xs ys.
Proof.
  revert ys. induction xs as [|a xs IH]; intros [|b ys]; simpl;
    try (intros H; discriminate H).
  - constructor.
  - destruct (c a b) as [e|] eqn:E; [|discriminate].
    destruct (Z.eqb_spec e 0) as [->|Ne]; simpl.
    + intros H. constructor; auto.
    + intros H. inversion H. contradiction.
Qed.

Lemma Some_unique (o : option Z) (a b : Z) : o = Some a -> o = Some b -> a = b.
Proof. intros -> H. inversion H. reflexivity. Qed.

Lemma Forall2_refine {A : Type} (P : A -> Prop) (R R' : A -> A -> Prop) (xs ys : list A) :
  (forall a b, P a -> R a b -> R' a b) ->
  Forall P xs -> Forall2 R xs ys -> Forall2 R' xs ys.
Proof.
  intros H F F2. revert F. induction F2; intros F; constructor; inversion F; auto.
Qed.

Lemma lex_entries_zero (c : CompareFn) (p q : list (string * value)) :
  forall ks ks',
    lex (pairCompare c) (map (fun k => (k, getProp p k)) ks)
                        (map (fun k => (k, getProp q k)) ks') = Some 0 ->
    ks = ks' /\ forall k, In k ks -> c (getProp p k) (getProp q k) = Some 0.
Proof.
  induction ks as [|k ks IH]; intros [|k' ks']; simpl; try (intros H; discriminate H).
  - intros _. split; [reflexivity|]. intros k [].
  - unfold pairCompare at 1. simpl.
    destruct (String.compare k k') eqn:E; simpl; try (intros H; discriminate H).
    apply String.compare_eq_iff in E. subst k'.
    destruct (c (getProp p k) (getProp q k)) as [e|] eqn:Ec; [|discriminate].
    destruct (Z.eqb_spec e 0) as [->|Ne]; simpl.
    + intros H. destruct (IH ks' H) as [-> Hall].
      split; [reflexivity|]. intros k0 [<-|Hin]; auto.
    + intros H. inversion H. contradiction.
Qed.

(** X5 — Key-order independence: under the default comparator two
    objects holding the same properties under distinct keys compare as
    equal, whatever the order in which the properties were inserted and
    whatever the classes of the two objects. *)
Theorem compare_insertion_order_irrelevant (class class' : option string)
  (props props' : list (string * value)) :
  Permutation props props' -> NoDup (keys props) ->
  compare (VObject class props) (VObject class' props') = 0.
Proof. apply compare_key_order_independent. Qed.

Lemma compare_insertion_order_irrelevant_witness :
  Permutation [("b", VNumber NaN); ("a", VArray [int 1]); ("c", VNull)]
              [("c", VNull); ("b", VNumber NaN); ("a", VArray [int 1])] /\
  NoDup (keys [("b", VNumber NaN); ("a", VArray [int 1]); ("c", VNull)]) /\
  compare (VObject None [("b", VNumber NaN); ("a", VArray [int 1]); ("c", VNull)])
          (VObject (Some "Box") [("c", VNull); ("b", VNumber NaN); ("a", VArray [int 1])])
  = 0.
Proof.
  assert (Hp : Permutation [("b", VNumber NaN); ("a", VArray [int 1]); ("c", VNull)]
                           [("c", VNull); ("b", VNumber NaN); ("a", VArray [int 1])]).
  { apply Permutation_sym.
    exact (Permutation_cons_append [("b", VNumber NaN); ("a", VArray [int 1])] ("c", VNull)). }
  assert (Hn : NoDup (keys [("b", VNumber NaN); ("a", VArray [int 1]); ("c", VNull)])).
  { simpl. repeat constructor; simpl; intuition discriminate. }
  split; [exact Hp|]. split; [exact Hn|].
  exact (compare_insertion_order_irrelevant None (Some "Box") _ _ Hp Hn).
Defined.

(** X6 — A result of 0 under the default comparator is only possible
    inside one category; there it means equal strings, equal booleans,
    arrays of one length whose items compare as 0 pairwise, and objects
    with the same keys whose values compare as 0 under each key. *)
Theorem compare_zero_same_shape (x y : value) :
  compare x y = 0 -> categoryOf x = categoryOf y /\ sameShape compare x y.
Proof.
  intros H0.
  pose proof (compare_get (S (depth x)) x y (Nat.lt_succ_diag_r _)) as H.
  rewrite H0, default_step in H.
  destruct (Z.eqb_spec (rank (categoryOf x)) (rank (categoryOf y))) as [E|N].
  2:{ inversion H as [Hs]. apply signOf_zero in Hs.
      apply Z.compare_eq in Hs. contradiction. }
  apply rank_inj in E. split; [exact E|].
  destruct x; destruct y; try discriminate E; simpl; try exact I.
  - simpl within in H. rewrite comparePrimitives_strings in H.
    inversion H as [Hs]. apply signOf_zero in Hs.
    apply String.compare_eq_iff. exact Hs.
  - destruct b, b0; try reflexivity; vm_compute in H; discriminate H.
  - simpl within in H. rewrite compareArrays_lex in H. apply lex_zero in H.
    assert (Hd : (depth (VArray items) < S (depth (VArray items)))%nat) by lia.
    apply depth_items in Hd.
    apply (Forall2_refine _ _ _ _ _ (fun a b Ha Hab =>
             Some_unique _ _ _ (compare_get _ a b Ha) Hab) Hd H).
  - simpl within in H. rewrite compareObjects_lex in H. unfold entries in H.
    apply lex_entries_zero in H. destruct H as [Hk Hall].
    split; [exact Hk|]. intros k Hin.
    assert (Hd : (depth (VObject class props) < S (depth (VObject class props)))%nat) by lia.
    assert (Hn : (0 < depth (VObject class props))%nat) by (simpl; lia).
    apply depth_props in Hd.
    assert (Hg : (depth (getProp props k) < depth (VObject class props))%nat).
    { destruct (getProp_cases props k) as [->|Hg]; [exact Hn|].
      rewrite Forall_forall in Hd. auto. }
    apply (Some_unique _ _ _ (compare_get _ (getProp props k) (getProp props0 k) Hg)).
    apply Hall.
    apply (Permutation_in k (sort_perm (keys props))). exact Hin.
Qed.

Lemma compare_zero_same_shape_witness :
  compare (obj [("a", VArray [VNumber NaN]); ("b", VString "s")])
          (obj [("b", VString "s"); ("a", VArray [int 4])]) = 0 /\
  categoryOf (obj [("a", VArray [VNumber NaN]); ("b", VString "s")])
  = categoryOf (obj [("b", VString "s"); ("a", VArray [int 4])]) /\
  sameShape compare (obj [("a", VArray [VNumber NaN]); ("b", VString "s")])
                    (obj [("b", VString "s"); ("a", VArray [int 4])]).
Proof.
  split; [reflexivity|].
  apply (compare_zero_same_shape
           (obj [("a", VArray [VNumber NaN]); ("b", VString "s")])
           (obj [("b", VString "s"); ("a", VArray [int 4])])).
  reflexivity.
Defined.

(** ** The default rules and the leaf comparisons *)

(** X7 — The predicates of the default builder partition the values:
    the rule at index [k] accepts [v] exactly when [k] is the position
    of the category of [v], so that every value is accepted by one
    default rule and by no other. *)
Theorem default_rules_partition (v : value) (k : nat) (rule : Plugin.t) :
  nth_error (Builder.plugins builder) k = Some rule ->
  (Plugin.predicate rule v = true <-> Z.of_nat k = rank (categoryOf v)).
Proof.
  intros H.
  do 9 (destruct k as [|k];
        [inversion H; subst rule; destruct v; simpl; split; intros E;
         first [reflexivity | discriminate E]|]).
  destruct k; discriminate H.
Qed.

Lemma default_rules_partition_witness :
  nth_error (Builder.plugins builder) 4 = Some (Plugin.make isObject None) /\
  (Plugin.predicate (Plugin.make isObject None) (box 3) = true <->
   Z.of_nat 4 = rank (categoryOf (box 3))).
Proof.
  split; [reflexivity|].
  apply (default_rules_partition (box 3) 4 (Plugin.make isObject None)).
  reflexivity.
Defined.

(** X8 — Dates are ordered as their time values are as numbers; an
    invalid date therefore compares as equal to every date. *)
Theorem compare_dates_by_time (a b : number) :
  compare (VDate a) (VDate b) = compare (VNumber a) (VNumber b) /\
  compare (VDate NaN) (VDate b) = 0 /\
  compare (VDate a) (VDate NaN) = 0.
Proof.
  assert (H : forall s t, Builder.get builder 1 (VDate s) (VDate t) = Some (numSign s t)).
  { intros s t. rewrite default_step. simpl.
    apply (comparePrimitives_eval _ _ (PNumber s) (PNumber t)); reflexivity. }
  assert (G : forall s t, Builder.get builder 1 (VNumber s) (VNumber t) = Some (numSign s t)).
  { intros s t. rewrite default_step. simpl. apply comparePrimitives_numbers. }
  unfold compare. simpl depth. rewrite !H, G.
  split; [reflexivity|].
  split; unfold numSign; [destruct b|destruct a]; reflexivity.
Qed.




(** X11 — [compareArrays] and [compareObjects] hand antisymmetry on: if
    the comparator given for the members returns negated results on
    exchanged operands, so do they. *)
Theorem structural_comparisons_antisymmetric (compareMembers : CompareFn) :
  (forall a b r, compareMembers a b = Some r -> compareMembers b a = Some (- r)) ->
  (forall x y r,
     compareArrays x y compareMembers = Some r ->
     compareArrays y x compareMembers = Some (- r)) /\
  (forall x y r,
     compareObjects x y compareMembers = Some r ->
     compareObjects y x compareMembers = Some (- r)).
Proof.
  intros Hc. split; intros x y r.
  - rewrite !compareArrays_lex. apply lex_antisym. exact Hc.
  - rewrite !compareObjects_lex. apply lex_antisym.
    apply pairCompare_antisym. exact Hc.
Qed.

Lemma structural_comparisons_antisymmetric_witness :
  (forall a b r, comparePrimitives a b = Some r -> comparePrimitives b a = Some (- r)) /\
  (forall x y r,
     compareArrays x y comparePrimitives = Some r ->
     compareArrays y x comparePrimitives = Some (- r)) /\
  (forall x y r,
     compareObjects x y comparePrimitives = Some r ->
     compareObjects y x comparePrimitives = Some (- r)).
Proof.
  split; [exact comparePrimitives_antisym|].
  exact (structural_comparisons_antisymmetric comparePrimitives comparePrimitives_antisym).
Defined.

(** ** Objects and their keys *)

Lemma sort_cons_nonempty (k : string) (l : list string) : sort (k :: l) <> [].
Proof.
  intros E. pose proof (Permutation_length (sort_perm (k :: l))) as H.
  rewrite E in H. discriminate H.
Qed.

(** X12 — Under the default comparator the object whose smallest key
    is the smaller one is the smaller object, whatever the values and
    the other keys; and the empty object is below every object that
    has a property. *)
Theorem compare_objects_by_smallest_key
  (class class' : option string) (props props' : list (string * value)) :
  (forall kx restX ky restY,
     sort (keys props) = kx :: restX -> sort (keys props') = ky :: restY ->
     String.ltb kx ky = true ->
     compare (VObject class props) (VObject class' props') = -1 /\
     compare (VObject class' props') (VObject class props) = 1) /\
  (forall entry,
     compare (VObject class []) (VObject class' (entry :: props')) = -1 /\
     compare (VObject class' (entry :: props')) (VObject class []) = 1).
Proof.
  assert (Hstep : forall c c' p p' r,
            compareObjects_spec p p' (Builder.get builder O) = Some r ->
            compare (VObject c p) (VObject c' p') = r /\
            compare (VObject c' p') (VObject c p) = - r).
  { intros c c' p p' r H.
    assert (G : Builder.get builder 1 (VObject c p) (VObject c' p') = Some r)
      by (rewrite default_step; simpl; rewrite compareObjects_walk; exact H).
    pose proof (default_antisym _ _ _ _ G) as G'.
    apply (closure_mono_le _ 1 (S (depth (VObject c p)))) in G; [|simpl; lia].
    apply (closure_mono_le _ 1 (S (depth (VObject c' p')))) in G'; [|simpl; lia].
    split.
    - exact (Some_unique _ _ _ (compare_get _ _ _ (Nat.lt_succ_diag_r _)) G).
    - exact (Some_unique _ _ _ (compare_get _ _ _ (Nat.lt_succ_diag_r _)) G'). }
  split.
  - intros kx restX ky restY Hx Hy Hlt.
    apply (Hstep class class' props props' (-1)).
    unfold compareObjects_spec. rewrite Hx, Hy. simpl.
    unfold String.ltb in Hlt.
    destruct (String.compare kx ky); first [reflexivity | discriminate Hlt].
  - intros [k v].
    apply (Hstep class class' [] ((k, v) :: props') (-1)).
    unfold compareObjects_spec.
    destruct (sort (keys ((k, v) :: props'))) as [|k' ks] eqn:E.
    + exfalso. exact (sort_cons_nonempty k (keys props') E).
    + reflexivity.
Qed.

Lemma compare_objects_by_smallest_key_witness :
  sort (keys [("m", int 9); ("b", VNull)]) = "b" :: ["m"] /\
  sort (keys [("z", int 0); ("c", VNull); ("d", VNull)]) = "c" :: ["d"; "z"] /\
  String.ltb "b" "c" = true /\
  compare (obj [("m", int 9); ("b", VNull)]) (obj [("z", int 0); ("c", VNull); ("d", VNull)])
  = -1 /\
  compare (obj [("z", int 0); ("c", VNull); ("d", VNull)]) (obj [("m", int 9); ("b", VNull)])
  = 1.
Proof.
  split; [reflexivity|]. split; [reflexivity|]. split; [reflexivity|].
  apply (proj1 (compare_objects_by_smallest_key None None
                  [("m", int 9); ("b", VNull)]
                  [("z", int 0); ("c", VNull); ("d", VNull)])
               "b" ["m"] "c" ["d"; "z"]); reflexivity.
Defined.

(** ** Appending a rule to a builder *)

Lemma lastMatch_bounds (rules : list Plugin.t) (v : value) :
  -1 <= lastMatch rules 0 v (-1) < Z.of_nat (List.length rules).
Proof.
  destruct (lastMatch_inv rules 0 v (-1)) as [[-> _]|[m [r [-> [Hnth _]]]]]; [lia|].
  assert (m < List.length rules)%nat by (apply nth_error_Some; congruence).
  lia.
Qed.

Lemma classify_append (rules : list Plugin.t) (plugin : Plugin.t) (x y : value) :
  Builder.classify (rules ++ [plugin]) 0 x y (-1) (-1) =
  ((if Plugin.predicate plugin x then Z.of_nat (List.length rules)
    else lastMatch rules 0 x (-1)),
   (if Plugin.predicate plugin y then Z.of_nat (List.length rules)
    else lastMatch rules 0 y (-1))).
Proof. rewrite classify_lastMatch, !lastMatch_app. reflexivity. Qed.

Lemma nth_error_last_rule (rules : list Plugin.t) (plugin : Plugin.t) :
  nth_error (rules ++ [plugin]) (Z.to_nat (Z.of_nat (List.length rules))) = Some plugin.
Proof. rewrite Nat2Z.id. apply nth_error_middle. Qed.

(** A value that the appended rule accepts against one that it
    rejects. *)
Lemma closure_append_accept_reject
  (rules : list Plugin.t) (plugin : Plugin.t) (n : nat) (v w : value) :
  Plugin.predicate plugin v = true -> Plugin.predicate plugin w = false ->
  Builder.closure (rules ++ [plugin]) (S n) v w = Some 1 /\
  Builder.closure (rules ++ [plugin]) (S n) w v = Some (-1).
Proof.
  intros Hv Hw. rewrite !closure_S, !classify_append, Hv, Hw.
  pose proof (lastMatch_bounds rules w) as Hb.
  destruct (Z.eqb_spec (Z.of_nat (List.length rules)) (lastMatch rules 0 w (-1))); [lia|].
  destruct (Z.eqb_spec (lastMatch rules 0 w (-1)) (Z.of_nat (List.length rules))); [lia|].
  simpl negb. cbv iota. rewrite !comparePrimitives_int.
  destruct (Z.compare_spec (Z.of_nat (List.length rules)) (lastMatch rules 0 w (-1)));
    try lia.
  destruct (Z.compare_spec (lastMatch rules 0 w (-1)) (Z.of_nat (List.length rules)));
    try lia.
  split; reflexivity.
Qed.

(** Two values that the appended rule accepts. *)
Lemma closure_append_accept_accept
  (rules : list Plugin.t) (plugin : Plugin.t) (n : nat) (v w : value) :
  Plugin.predicate plugin v = true -> Plugin.predicate plugin w = true ->
  Builder.closure (rules ++ [plugin]) (S n) v w =
  match Plugin.compare plugin with
  | Some cmp => cmp v w
  | None =>
      if isObject v then
        if isObject w
        then compareObjects (ownProps v) (ownProps w) (Builder.closure (rules ++ [plugin]) n)
        else Some (-1)
      else if isArray v then
        if isArray w
        then compareArrays (elements v) (elements w) (Builder.closure (rules ++ [plugin]) n)
        else Some 1
      else Some 0
  end.
Proof.
  intros Hv Hw. rewrite closure_S, classify_append, Hv, Hw.
  rewrite Z.eqb_refl. simpl negb. cbv iota.
  destruct (Z.leb_spec 0 (Z.of_nat (List.length rules))); [|lia].
  rewrite nth_error_last_rule. reflexivity.
Qed.

Lemma ifType_accept_cases
  (b : Builder.t) (p : value -> bool) (cmp : CompareFn) (n : nat) (v w : value) :
  p v = true ->
  (p w = false ->
   Builder.get (Builder.ifType b p cmp) (S n) v w = Some 1 /\
   Builder.get (Builder.ifType b p cmp) (S n) w v = Some (-1)) /\
  (p w = true ->
   Builder.get (Builder.ifType b p cmp) (S n) v w = cmp v w).
Proof.
  intros Hv. unfold Builder.get, Builder.ifType. simpl Builder.plugins. split; intros Hw.
  - apply closure_append_accept_reject; assumption.
  - rewrite closure_append_accept_accept by assumption. reflexivity.
Qed.

(** X13 — "Elements of type U will come after any other type defined
    so far": for every builder, under the comparator built after
    [ifType(predicate, compare)] a value that [predicate] accepts is
    above every value that it rejects, and two accepted values are
    compared by [compare]. *)
Theorem ifType_comes_after
  (b : Builder.t) (predicate : value -> bool) (compare : CompareFn)
  (n : nat) (v w : value) :
  predicate v = true ->
  (predicate w = false ->
   Builder.get (Builder.ifType b predicate compare) (S n) v w = Some 1 /\
   Builder.get (Builder.ifType b predicate compare) (S n) w v = Some (-1)) /\
  (predicate w = true ->
   Builder.get (Builder.ifType b predicate compare) (S n) v w = compare v w).
Proof. apply ifType_accept_cases. Qed.

Lemma ifType_comes_after_witness :
  isBox (box 1) = true /\
  (isBox (VRegExp "x" "") = false ->
   Builder.get (Builder.ifType Builder.create isBox compareBox) 1 (box 1) (VRegExp "x" "")
   = Some 1 /\
   Builder.get (Builder.ifType Builder.create isBox compareBox) 1 (VRegExp "x" "") (box 1)
   = Some (-1)).
Proof.
  split; [reflexivity|].
  apply (ifType_comes_after Builder.create isBox compareBox 0 (box 1) (VRegExp "x" "")).
  reflexivity.
Defined.

(** X14 — For every builder, after [thenTypeObject()] an object is
    above every value that is not an object and two objects are
    compared by [compareObjects] with the built comparator on their
    values; after [thenTypeArray()] the same holds of arrays with
    [compareArrays]. *)
Theorem bare_type_comes_after (b : Builder.t) (n : nat) (v w : value) :
  (isObject v = true ->
   (isObject w = false ->
    Builder.get (Builder.thenTypeObject b) (S n) v w = Some 1 /\
    Builder.get (Builder.thenTypeObject b) (S n) w v = Some (-1)) /\
   (isObject w = true ->
    Builder.get (Builder.thenTypeObject b) (S n) v w =
    compareObjects (ownProps v) (ownProps w) (Builder.get (Builder.thenTypeObject b) n))) /\
  (isArray v = true ->
   (isArray w = false ->
    Builder.get (Builder.thenTypeArray b) (S n) v w = Some 1 /\
    Builder.get (Builder.thenTypeArray b) (S n) w v = Some (-1)) /\
   (isArray w = true ->
    Builder.get (Builder.thenTypeArray b) (S n) v w =
    compareArrays (elements v) (elements w) (Builder.get (Builder.thenTypeArray b) n))).
Proof.
  unfold Builder.get, Builder.thenTypeObject, Builder.thenTypeArray.
  simpl Builder.plugins.
  split; intros Hv; split; intros Hw.
  - apply closure_append_accept_reject; assumption.
  - rewrite closure_append_accept_accept by assumption. simpl. rewrite Hv, Hw. reflexivity.
  - apply closure_append_accept_reject; assumption.
  - rewrite closure_append_accept_accept by assumption. simpl. rewrite Hv, Hw.
    destruct v; try discriminate Hv. reflexivity.
Qed.

Lemma bare_type_comes_after_witness :
  isObject (obj [("a", int 1)]) = true /\
  (isObject (int 5) = false ->
   Builder.get (Builder.thenTypeObject Builder.create) 1 (obj [("a", int 1)]) (int 5)
   = Some 1 /\
   Builder.get (Builder.thenTypeObject Builder.create) 1 (int 5) (obj [("a", int 1)])
   = Some (-1)).
Proof.
  split; [reflexivity|].
  apply (proj1 (bare_type_comes_after Builder.create 0 (obj [("a", int 1)]) (int 5)));
    reflexivity.
Defined.

(** ** A new rule leaves the old order alone *)

Lemma lex_ext {A : Type} (P : A -> Prop) (c c' : A -> A -> option Z) (xs ys : list A) :
  (forall a b, P a -> P b -> c a b = c' a b) ->
  Forall P xs -> Forall P ys -> lex c xs ys = lex c' xs ys.
Proof.
  intros H Fx. revert ys. induction Fx as [|a xs Pa Fx IH]; intros ys Fy;
    destruct Fy as [|b ys Pb Fy]; simpl; try reflexivity.
  rewrite (H a b Pa Pb). destruct (c' a b) as [e|]; [|reflexivity].
  destruct (negb (e =? 0)); [reflexivity|]. apply IH. exact Fy.
Qed.

Lemma getProp_key (x : list (string * value)) (k : string) :
  In k (keys x) -> In (getProp x k) (map snd x).
Proof.
  intros Hin. unfold getProp.
  destruct (find (fun kv => String.eqb (fst kv) k) x) as [[k' v]|] eqn:E.
  - apply find_some in E. destruct E as [E _]. exact (in_map snd _ _ E).
  - exfalso. unfold keys in Hin. apply in_map_iff in Hin.
    destruct Hin as [[k' v] [Hk Hin]]. simpl in Hk. subst k'.
    pose proof (find_none _ _ E _ Hin) as Hf. simpl in Hf.
    rewrite String.eqb_refl in Hf. discriminate Hf.
Qed.

(** The values of the entries are values stored in the object. *)
Lemma entries_stored (Q : value -> Prop) (x : list (string * value)) :
  Forall Q (map snd x) -> Forall (fun kv => Q (snd kv)) (entries x).
Proof.
  intros Hx. unfold entries. apply Forall_forall.
  intros kv Hin. apply in_map_iff in Hin. destruct Hin as [k [<- Hk]]. simpl.
  rewrite Forall_forall in Hx. apply Hx. apply getProp_key.
  apply (Permutation_in k (Permutation_sym (sort_perm (keys x)))). exact Hk.
Qed.

Lemma rejectedDeep_top (p : value -> bool) (v : value) :
  rejectedDeep p v = true -> p v = false.
Proof.
  destruct v; simpl; intros H; apply andb_true_iff in H; destruct H as [H _];
    apply negb_true_iff in H; exact H.
Qed.

Lemma rejectedDeep_items (p : value -> bool) (items : list value) :
  rejectedDeep p (VArray items) = true ->
  Forall (fun v => rejectedDeep p v = true) items.
Proof.
  simpl. intros H. apply andb_true_iff in H. destruct H as [_ H].
  apply Forall_forall. apply forallb_forall. exact H.
Qed.

Lemma rejectedDeep_props (p : value -> bool) (class : option string)
  (props : list (string * value)) :
  rejectedDeep p (VObject class props) = true ->
  Forall (fun v => rejectedDeep p v = true) (map snd props).
Proof.
  simpl. intros H. apply andb_true_iff in H. destruct H as [_ H].
  induction props as [|[k v] props IH]; simpl in *; constructor;
    apply andb_true_iff in H; destruct H; auto.
Qed.

Lemma closure_append_conservative (rules : list Plugin.t) (plugin : Plugin.t) (n : nat) :
  forall x y,
    rejectedDeep (Plugin.predicate plugin) x = true ->
    rejectedDeep (Plugin.predicate plugin) y = true ->
    Builder.closure (rules ++ [plugin]) n x y = Builder.closure rules n x y.
Proof.
  induction n as [|n IH]; intros x y Rx Ry; [reflexivity|].
  rewrite !closure_S, classify_append, classify_lastMatch.
  rewrite (rejectedDeep_top _ _ Rx), (rejectedDeep_top _ _ Ry).
  cbv beta iota.
  destruct (negb (lastMatch rules 0 x (-1) =? lastMatch rules 0 y (-1))); [reflexivity|].
  assert (Hsel :
    (if 0 <=? lastMatch rules 0 x (-1)
     then rule <- nth_error (rules ++ [plugin]) (Z.to_nat (lastMatch rules 0 x (-1))) ;;
          Plugin.compare rule
     else None) =
    (if 0 <=? lastMatch rules 0 x (-1)
     then rule <- nth_error rules (Z.to_nat (lastMatch rules 0 x (-1))) ;;
          Plugin.compare rule
     else None)).
  { destruct (Z.leb_spec 0 (lastMatch rules 0 x (-1))); [|reflexivity].
    rewrite nth_error_app1; [reflexivity|].
    pose proof (lastMatch_bounds rules x). lia. }
  rewrite Hsel. clear Hsel.
  match goal with
  | |- match ?selected with Some _ => _ | None => _ end = _ =>
      destruct selected; [reflexivity|]
  end.
  destruct x; simpl; try reflexivity; destruct y; simpl; try reflexivity.
  - rewrite !compareArrays_lex.
    apply (lex_ext (fun v => rejectedDeep (Plugin.predicate plugin) v = true));
      [exact IH| |]; apply rejectedDeep_items; assumption.
  - rewrite !compareObjects_lex.
    apply (lex_ext (fun kv => rejectedDeep (Plugin.predicate plugin) (snd kv) = true)).
    + intros [k1 v1] [k2 v2] H1 H2. unfold pairCompare. simpl.
      destruct (String.compare k1 k2); try reflexivity. apply IH; assumption.
    + apply (entries_stored (fun v => rejectedDeep (Plugin.predicate plugin) v = true)).
      eapply rejectedDeep_props. eassumption.
    + apply (entries_stored (fun v => rejectedDeep (Plugin.predicate plugin) v = true)).
      eapply rejectedDeep_props. eassumption.
Qed.

(** X15 — Appending a rule does not disturb the order among the values
    it does not concern: on two values that the new predicate rejects
    together with everything nested in them, the comparator built after
    [ifType], [thenTypeObject] or [thenTypeArray] returns what the
    comparator built before returns. *)
Theorem extension_is_conservative (b : Builder.t) (n : nat) (x y : value) :
  (forall predicate compare,
     rejectedDeep predicate x = true -> rejectedDeep predicate y = true ->
     Builder.get (Builder.ifType b predicate compare) n x y = Builder.get b n x y) /\
  (rejectedDeep isObject x = true -> rejectedDeep isObject y = true ->
   Builder.get (Builder.thenTypeObject b) n x y = Builder.get b n x y) /\
  (rejectedDeep isArray x = true -> rejectedDeep isArray y = true ->
   Builder.get (Builder.thenTypeArray b) n x y = Builder.get b n x y).
Proof.
  unfold Builder.get, Builder.ifType, Builder.thenTypeObject, Builder.thenTypeArray.
  simpl Builder.plugins.
  split; [|split].
  - intros predicate compare Rx Ry.
    exact (closure_append_conservative _ (Plugin.make predicate (Some compare)) n x y Rx Ry).
  - intros Rx Ry.
    exact (closure_append_conservative _ (Plugin.make isObject None) n x y Rx Ry).
  - intros Rx Ry.
    exact (closure_append_conservative _ (Plugin.make isArray None) n x y Rx Ry).
Qed.

Lemma extension_is_conservative_witness :
  rejectedDeep isBox (obj [("a", VArray [int 1; VNull])]) = true /\
  rejectedDeep isBox (obj [("a", VArray [int 1; VString "s"])]) = true /\
  Builder.get (Builder.ifType builder isBox compareBox) 3
    (obj [("a", VArray [int 1; VNull])]) (obj [("a", VArray [int 1; VString "s"])])
  = Builder.get builder 3
      (obj [("a", VArray [int 1; VNull])]) (obj [("a", VArray [int 1; VString "s"])]).
Proof.
  split; [reflexivity|]. split; [reflexivity|].
  apply (proj1 (extension_is_conservative builder 3
                  (obj [("a", VArray [int 1; VNull])])
                  (obj [("a", VArray [int 1; VString "s"])]))); reflexivity.
Defined.

(** ** Antisymmetry survives a compatible extension *)

Lemma extended_step (p : value -> bool) (cmp : CompareFn) (n : nat) (x y : value) :
  p x = false -> p y = false ->
  Builder.get (Builder.ifType builder p cmp) (S n) x y =
  if rank (categoryOf x) =? rank (categoryOf y)
  then within (Builder.get (Builder.ifType builder p cmp) n) x y
  else Some (signOf (rank (categoryOf x) ?= rank (categoryOf y))).
Proof.
  intros Hx Hy. unfold Builder.get.
  change (Builder.plugins (Builder.ifType builder p cmp))
    with (Builder.plugins builder ++ [Plugin.make p (Some cmp)]).
  rewrite closure_S, classify_append. simpl Plugin.predicate.
  rewrite Hx, Hy, !lastMatch_default.
  destruct x, y; reflexivity.
Qed.

Lemma extended_antisym (p : value -> bool) (cmp : CompareFn) :
  (forall v w r, p v = true -> p w = true -> cmp v w = Some r -> cmp w v = Some (- r)) ->
  forall n x y r,
    Builder.get (Builder.ifType builder p cmp) n x y = Some r ->
    Builder.get (Builder.ifType builder p cmp) n y x = Some (- r).
Proof.
  intros Hcmp. induction n as [|n IH]; intros x y r; [discriminate|].
  destruct (p x) eqn:Px; destruct (p y) eqn:Py.
  - rewrite (proj2 (ifType_accept_cases builder p cmp n x y Px) Py).
    rewrite (proj2 (ifType_accept_cases builder p cmp n y x Py) Px).
    apply Hcmp; assumption.
  - destruct (proj1 (ifType_accept_cases builder p cmp n x y Px) Py) as [-> ->].
    intros H; inversion H; reflexivity.
  - destruct (proj1 (ifType_accept_cases builder p cmp n y x Py) Px) as [-> ->].
    intros H; inversion H; reflexivity.
  - rewrite !extended_step by assumption.
    rewrite (Z.eqb_sym (rank (categoryOf y))).
    destruct (Z.eqb_spec (rank (categoryOf x)) (rank (categoryOf y))) as [E|N].
    + apply rank_inj in E.
      destruct x; destruct y; try discriminate E; simpl;
        try apply comparePrimitives_antisym;
        try (intros H; inversion H; reflexivity).
      * rewrite !compareArrays_lex. apply lex_antisym. exact IH.
      * rewrite !compareObjects_lex. apply lex_antisym.
        apply pairCompare_antisym. exact IH.
    + rewrite (Z.compare_antisym (rank (categoryOf x)) (rank (categoryOf y))).
      rewrite signOf_opp. intros H; inversion H; reflexivity.
Qed.

(** X16 — Antisymmetry survives a compatible extension: if the
    comparator registered with [builder.ifType(predicate, compare)]
    returns negated results on exchanged operands of its type, then so
    does the comparator built from the extended default builder, on all
    values. *)
Theorem extended_builder_antisymmetric
  (predicate : value -> bool) (compare : CompareFn) :
  (forall v w r,
     predicate v = true -> predicate w = true ->
     compare v w = Some r -> compare w v = Some (- r)) ->
  forall n x y r,
    Builder.get (Builder.ifType builder predicate compare) n x y = Some r ->
    Builder.get (Builder.ifType builder predicate compare) n y x = Some (- r).
Proof. apply extended_antisym. Qed.

Lemma extended_builder_antisymmetric_witness :
  (forall v w r,
     isBox v = true -> isBox w = true ->
     compareBox v w = Some r -> compareBox w v = Some (- r)) /\
  Builder.get (Builder.ifType builder isBox compareBox) 2
    (VArray [box 1; int 3]) (VArray [box 2]) = Some (-1) /\
  Builder.get (Builder.ifType builder isBox compareBox) 2
    (VArray [box 2]) (VArray [box 1; int 3]) = Some (- -1).
Proof.
  assert (H : forall v w r,
            isBox v = true -> isBox w = true ->
            compareBox v w = Some r -> compareBox w v = Some (- r))
    by (intros v w r _ _; apply comparePrimitives_antisym).
  split; [exact H|]. split; [reflexivity|].
  apply (extended_builder_antisymmetric isBox compareBox H 2
           (VArray [box 1; int 3]) (VArray [box 2]) (-1)).
  reflexivity.
Defined.
